(** * radish: the RabbitMQ management REST client (rabbitmq_rest_client.go)

    A shallow embedding of [RabbitHTTPClient]: the resource fetcher
    [getResource], the deletion [delResource] / [CloseConnection], the
    fan-out/fan-in aggregator [BrokerInfo] and the per-resource accessors.

    - Go's [error] interface is the type [error]; a nil error is [None].
    - A goroutine's channel is the queue of the messages its sender will
      deliver; receiving from an empty queue blocks for ever.
    - [select] is driven by a schedule: the order in which its cases are
      tried by the runtime.
    - A failed type assertion panics; a receive nobody answers blocks. *)

From Stdlib Require Import List String ZArith Bool Lia.
Import ListNotations.
Local Open Scope string_scope.

Set Implicit Arguments.

(** ** Go values shared by all operations *)

(** Values behind Go's [error] interface, by the place they come from:
    [errors.New], the HTTP client (transport), [encoding/json]. *)
Inductive error : Type :=
| errors_New (text : string)
| url_Error (msg : string)
| json_Error (msg : string).

(** The [Error()] method. *)
Definition Error (e : error) : string :=
  match e with
  | errors_New text => text
  | url_Error msg => msg
  | json_Error msg => msg
  end.

(** A Go call returning [(T, error)]. *)
Inductive or_error (A : Type) : Type :=
| Ok (a : A)
| Err (e : error).
Arguments Err {A} e.

(** [http.Response], as far as the client reads it; [Body] is what
    [buf.ReadFrom(resp.Body)] collects. *)
Record Response : Type := mkResponse {
  Status : string;
  StatusCode : Z;
  Body : string
}.

(** [http.Request] built by [http.NewRequest(method, uri, nil)]. *)
Record Request : Type := mkRequest {
  Method : string;
  URL : string
}.

(** [*http.Client] with its transport: what [Get] and [Do] answer. *)
Record Client : Type := mkClient {
  Get : string -> or_error Response;
  Do : Request -> or_error Response
}.

Record RabbitHTTPClient : Type := mkRabbitHTTPClient {
  uri : string;
  client : Client
}.

(** How a function ends: it returns, it panics, or it blocks for ever. *)
Inductive outcome (A : Type) : Type :=
| Returned (a : A)
| Panicked
| Blocked.
Arguments Panicked {A}.
Arguments Blocked {A}.

(** An unbuffered channel with one sender: the messages still to be
    delivered, oldest first. *)
Definition chan (A : Type) : Type := list A.

(** [<-ch]: the next message and the channel after it, [None] when no
    message will ever come. *)
Definition recv {A : Type} (ch : chan A) : option (A * chan A) :=
  match ch with
  | [] => None
  | m :: rest => Some (m, rest)
  end.

(** [json.Unmarshal(data, &v)] for a target of type [T]: the target after
    the call and the error. The target is written in place, so what the
    decoder stored before it failed stays. *)
Definition Unmarshaler (T : Type) : Type :=
  string -> T -> T * option error.

(** ** Resource deletion *)

Section Deletion.

(** [http.NewRequest]: method validation and URL parsing of net/http. *)
Variable http_NewRequest : string -> string -> or_error Request.

(** [delResource]: the requests handed to [client.Do], and the error. *)
Definition delResource (s : RabbitHTTPClient) (uri : string)
  : list Request * option error :=
  match http_NewRequest "DELETE" uri with
  | Err err => ([], Some err)
  | Ok req =>
    match Do (client s) req with
    | Err err => ([req], Some err)
    | Ok resp =>
      if negb (StatusCode resp =? 200)%Z && negb (StatusCode resp =? 204)%Z
      then ([req], Some (errors_New (Status resp)))
      else ([req], None)
    end
  end.

(** [CloseConnection(conn, reason)]. *)
Definition CloseConnection (s : RabbitHTTPClient) (conn reason : string)
  : list Request * option error :=
  delResource s (uri s ++ "/connections/" ++ conn).

End Deletion.

(** ** Message structs and dynamic types *)

(** The six message structs of the file with what the client needs of them:
    the zero value of [RabbitOverview] (a slice's zero value is nil, the
    empty list) and how [encoding/json] decodes a body into each target. *)
Record Schema : Type := mkSchema {
  RabbitOverview : Type;
  RabbitConnection : Type;
  RabbitExchange : Type;
  RabbitQueue : Type;
  RabbitConsumer : Type;
  RabbitBinding : Type;
  zero_RabbitOverview : RabbitOverview;
  Unmarshal_RabbitOverview : Unmarshaler RabbitOverview;
  Unmarshal_RabbitConnections : Unmarshaler (list RabbitConnection);
  Unmarshal_RabbitExchanges : Unmarshaler (list RabbitExchange);
  Unmarshal_RabbitQueues : Unmarshaler (list RabbitQueue);
  Unmarshal_RabbitConsumers : Unmarshaler (list RabbitConsumer);
  Unmarshal_RabbitBindings : Unmarshaler (list RabbitBinding)
}.

(** The six resources [BrokerInfo] asks for, one channel each. *)
Inductive Resource : Type :=
| overview | connections | exchanges | queues | consumers | bindings.

Definition Resource_eqb (a b : Resource) : bool :=
  match a, b with
  | overview, overview | connections, connections | exchanges, exchanges
  | queues, queues | consumers, consumers | bindings, bindings => true
  | _, _ => false
  end.

Definition all_resources : list Resource :=
  [overview; connections; exchanges; queues; consumers; bindings].

(** The [reflect.Type] values the file builds with [reflect.TypeOf]. *)
Inductive reflect_Type : Type :=
| type_RabbitOverview
| type_slice_RabbitConnection
| type_slice_RabbitExchange
| type_slice_RabbitQueue
| type_slice_RabbitConsumer
| type_slice_RabbitBinding.

(** What the main goroutine does that another goroutine can observe:
    [go func()] for the GET of a URI, and a receive on a resource's
    channel. *)
Inductive event : Type :=
| ev_go (request_uri : string)
| ev_recv (c : Resource).

Section Fetcher.

Variable M : Schema.

(** [interface{}] holding nil or a pointer to a value of one of the six
    result types; the constructor is the dynamic type, the argument the
    pointee. *)
Inductive iface : Type :=
| nil_iface
| ptr_RabbitOverview (v : RabbitOverview M)
| ptr_slice_RabbitConnection (v : list (RabbitConnection M))
| ptr_slice_RabbitExchange (v : list (RabbitExchange M))
| ptr_slice_RabbitQueue (v : list (RabbitQueue M))
| ptr_slice_RabbitConsumer (v : list (RabbitConsumer M))
| ptr_slice_RabbitBinding (v : list (RabbitBinding M)).

(** [reflect.New(t).Interface()]: a pointer to the zero value of [t]. *)
Definition reflect_New (t : reflect_Type) : iface :=
  match t with
  | type_RabbitOverview => ptr_RabbitOverview (zero_RabbitOverview M)
  | type_slice_RabbitConnection => ptr_slice_RabbitConnection []
  | type_slice_RabbitExchange => ptr_slice_RabbitExchange []
  | type_slice_RabbitQueue => ptr_slice_RabbitQueue []
  | type_slice_RabbitConsumer => ptr_slice_RabbitConsumer []
  | type_slice_RabbitBinding => ptr_slice_RabbitBinding []
  end.

(** [json.Unmarshal(data, r)]: decodes through the pointer, whose dynamic
    type stays; a nil target is refused. *)
Definition json_Unmarshal (data : string) (r : iface) : iface * option error :=
  match r with
  | nil_iface => (nil_iface, Some (json_Error "json: Unmarshal(nil)"))
  | ptr_RabbitOverview v =>
    let (v', err) := Unmarshal_RabbitOverview M data v in
    (ptr_RabbitOverview v', err)
  | ptr_slice_RabbitConnection v =>
    let (v', err) := Unmarshal_RabbitConnections M data v in
    (ptr_slice_RabbitConnection v', err)
  | ptr_slice_RabbitExchange v =>
    let (v', err) := Unmarshal_RabbitExchanges M data v in
    (ptr_slice_RabbitExchange v', err)
  | ptr_slice_RabbitQueue v =>
    let (v', err) := Unmarshal_RabbitQueues M data v in
    (ptr_slice_RabbitQueue v', err)
  | ptr_slice_RabbitConsumer v =>
    let (v', err) := Unmarshal_RabbitConsumers M data v in
    (ptr_slice_RabbitConsumer v', err)
  | ptr_slice_RabbitBinding v =>
    let (v', err) := Unmarshal_RabbitBindings M data v in
    (ptr_slice_RabbitBinding v', err)
  end.

(** The type assertions of an interface value to a pointer type: [None]
    is the panic of a failed one. *)
Definition assert_RabbitOverview (x : iface) : option (RabbitOverview M) :=
  match x with ptr_RabbitOverview v => Some v | _ => None end.
Definition assert_slice_RabbitConnection (x : iface)
  : option (list (RabbitConnection M)) :=
  match x with ptr_slice_RabbitConnection v => Some v | _ => None end.
Definition assert_slice_RabbitExchange (x : iface)
  : option (list (RabbitExchange M)) :=
  match x with ptr_slice_RabbitExchange v => Some v | _ => None end.
Definition assert_slice_RabbitQueue (x : iface)
  : option (list (RabbitQueue M)) :=
  match x with ptr_slice_RabbitQueue v => Some v | _ => None end.
Definition assert_slice_RabbitConsumer (x : iface)
  : option (list (RabbitConsumer M)) :=
  match x with ptr_slice_RabbitConsumer v => Some v | _ => None end.
Definition assert_slice_RabbitBinding (x : iface)
  : option (list (RabbitBinding M)) :=
  match x with ptr_slice_RabbitBinding v => Some v | _ => None end.

(** The dynamic type of an interface value as the pointee's
    [reflect.Type]; nil has none. *)
Definition TypeOf (x : iface) : option reflect_Type :=
  match x with
  | nil_iface => None
  | ptr_RabbitOverview _ => Some type_RabbitOverview
  | ptr_slice_RabbitConnection _ => Some type_slice_RabbitConnection
  | ptr_slice_RabbitExchange _ => Some type_slice_RabbitExchange
  | ptr_slice_RabbitQueue _ => Some type_slice_RabbitQueue
  | ptr_slice_RabbitConsumer _ => Some type_slice_RabbitConsumer
  | ptr_slice_RabbitBinding _ => Some type_slice_RabbitBinding
  end.

(** [httpRequest{uri, t}]; the fields carry the struct's name because
    [uri] is a field of the client too. *)
Record httpRequest : Type := mkHttpRequest {
  httpRequest_uri : string;
  httpRequest_t : reflect_Type
}.

Record httpResponse : Type := mkHttpResponse {
  result : iface;
  err : option error
}.

(** The zero [httpResponse] of [var res httpResponse]. *)
Definition zero_httpResponse : httpResponse :=
  {| result := nil_iface; err := None |}.

(** ** The resource fetcher *)

(** The goroutine of [getResource]: the messages it sends on [res], in
    order. Every path of the body is one send followed by [return]. *)
Definition getResource_goroutine (s : RabbitHTTPClient) (request : httpRequest)
  : chan httpResponse :=
  let r := reflect_New (httpRequest_t request) in
  match Get (client s) (httpRequest_uri request) with
  | Err e => [ {| result := r; err := Some e |} ]
  | Ok resp =>
    if negb (StatusCode resp =? 200)%Z
    then [ {| result := r; err := Some (errors_New (Status resp)) |} ]
    else
      let (r', e) := json_Unmarshal (Body resp) r in
      match e with
      | Some e' => [ {| result := r'; err := Some e' |} ]
      | None => [ {| result := r'; err := None |} ]
      end
  end.

(** The message of the goroutine as one value: what the three tests of
    the body leave in [result] and [err]. *)
Definition completion (s : RabbitHTTPClient) (request : httpRequest)
  : httpResponse :=
  let r := reflect_New (httpRequest_t request) in
  match Get (client s) (httpRequest_uri request) with
  | Err e => mkHttpResponse r (Some e)
  | Ok resp =>
    if (StatusCode resp =? 200)%Z
    then mkHttpResponse (fst (json_Unmarshal (Body resp) r))
                        (snd (json_Unmarshal (Body resp) r))
    else mkHttpResponse r (Some (errors_New (Status resp)))
  end.

(** The fetch of [u] ends before the body is decoded: the transport
    fails, or the status is not 200. *)
Definition failed_before_decoding (s : RabbitHTTPClient) (u : string) : Prop :=
  (exists e, Get (client s) u = Err e) \/
  (exists resp, Get (client s) u = Ok resp /\ StatusCode resp <> 200%Z).

(** [getResource]: makes the channel, starts the goroutine, returns the
    channel. *)
Definition getResource (s : RabbitHTTPClient) (request : httpRequest)
  : list event * chan httpResponse :=
  ([ev_go (httpRequest_uri request)], getResource_goroutine s request).

Definition getConnections (s : RabbitHTTPClient) :=
  getResource s (mkHttpRequest (uri s ++ "/connections") type_slice_RabbitConnection).

Definition getOverview (s : RabbitHTTPClient) :=
  getResource s (mkHttpRequest (uri s ++ "/overview") type_RabbitOverview).

Definition getExchanges (s : RabbitHTTPClient) :=
  getResource s (mkHttpRequest (uri s ++ "/exchanges") type_slice_RabbitExchange).

Definition getQueues (s : RabbitHTTPClient) :=
  getResource s (mkHttpRequest (uri s ++ "/queues") type_slice_RabbitQueue).

Definition getConsumers (s : RabbitHTTPClient) :=
  getResource s (mkHttpRequest (uri s ++ "/consumers") type_slice_RabbitConsumer).

Definition getBindings (s : RabbitHTTPClient) :=
  getResource s (mkHttpRequest (uri s ++ "/bindings") type_slice_RabbitBinding).

(** ** The per-resource accessors *)

(** Body shared by the six accessors: receive the response, assert the
    pointer type of [result.result], return its pointee and [result.err]. *)
Definition accessor {T : Type} (assertT : iface -> option T)
  (ch : chan httpResponse) : outcome (T * option error) :=
  match recv ch with
  | None => Blocked
  | Some (res, _) =>
    match assertT (result res) with
    | None => Panicked
    | Some v => Returned (v, err res)
    end
  end.

Definition RabbitHTTPClient_Connections (s : RabbitHTTPClient) :=
  accessor assert_slice_RabbitConnection (snd (getConnections s)).

Definition RabbitHTTPClient_Overview (s : RabbitHTTPClient) :=
  accessor assert_RabbitOverview (snd (getOverview s)).

Definition RabbitHTTPClient_Exchanges (s : RabbitHTTPClient) :=
  accessor assert_slice_RabbitExchange (snd (getExchanges s)).

Definition RabbitHTTPClient_Queues (s : RabbitHTTPClient) :=
  accessor assert_slice_RabbitQueue (snd (getQueues s)).

Definition RabbitHTTPClient_Consumers (s : RabbitHTTPClient) :=
  accessor assert_slice_RabbitConsumer (snd (getConsumers s)).

Definition RabbitHTTPClient_Bindings (s : RabbitHTTPClient) :=
  accessor assert_slice_RabbitBinding (snd (getBindings s)).

End Fetcher.

(** ** The snapshot aggregator *)

Section Aggregator.

Variable M : Schema.

(** The struct [BrokerInfo]. *)
Record BrokerInfo : Type := mkBrokerInfo {
  Overview : RabbitOverview M;
  Connections : list (RabbitConnection M);
  Exchanges : list (RabbitExchange M);
  Queues : list (RabbitQueue M);
  Consumers : list (RabbitConsumer M);
  Bindings : list (RabbitBinding M)
}.

(** The named result [r] when [BrokerInfo] starts. *)
Definition zero_BrokerInfo : BrokerInfo :=
  mkBrokerInfo (zero_RabbitOverview M) [] [] [] [] [].

Definition numExpectedResources : nat := 6.

(** The six channels of one call, by resource. *)
Definition channels : Type := Resource -> chan (httpResponse M).

Definition set_channel (chs : channels) (c : Resource)
  (ch : chan (httpResponse M)) : channels :=
  fun c' => if Resource_eqb c' c then ch else chs c'.

(** One case of the [select], entered with the message [msg] received on
    channel [c]: the value of the loop's variable [res] and of [r] after the
    case, [None] when the type assertion panics. The overview case binds the
    message with [res := <-overview], a variable of its own, so the loop's
    [res] keeps the value it had; the other five assign it with [res =]. *)
Definition select_case (c : Resource) (msg res : httpResponse M) (r : BrokerInfo)
  : option (httpResponse M * BrokerInfo) :=
  match c with
  | overview =>
    match assert_RabbitOverview (result msg) with
    | None => None
    | Some v =>
      Some (res, mkBrokerInfo v (Connections r) (Exchanges r) (Queues r)
                   (Consumers r) (Bindings r))
    end
  | connections =>
    match assert_slice_RabbitConnection (result msg) with
    | None => None
    | Some v =>
      Some (msg, mkBrokerInfo (Overview r) v (Exchanges r) (Queues r)
                   (Consumers r) (Bindings r))
    end
  | exchanges =>
    match assert_slice_RabbitExchange (result msg) with
    | None => None
    | Some v =>
      Some (msg, mkBrokerInfo (Overview r) (Connections r) v (Queues r)
                   (Consumers r) (Bindings r))
    end
  | queues =>
    match assert_slice_RabbitQueue (result msg) with
    | None => None
    | Some v =>
      Some (msg, mkBrokerInfo (Overview r) (Connections r) (Exchanges r) v
                   (Consumers r) (Bindings r))
    end
  | consumers =>
    match assert_slice_RabbitConsumer (result msg) with
    | None => None
    | Some v =>
      Some (msg, mkBrokerInfo (Overview r) (Connections r) (Exchanges r)
                   (Queues r) v (Bindings r))
    end
  | bindings =>
    match assert_slice_RabbitBinding (result msg) with
    | None => None
    | Some v =>
      Some (msg, mkBrokerInfo (Overview r) (Connections r) (Exchanges r)
                   (Queues r) (Consumers r) v)
    end
  end.

(** The [for] loop of [BrokerInfo]. [sched] is the order in which the
    runtime finds the cases of the [select]: a case whose channel has no
    message is not ready and is passed over, and when the schedule ends no
    case becomes ready any more. The result is the receives made and how
    the function ends, with the named results [(r, err)] when it returns. *)
Fixpoint BrokerInfo_loop (sched : list Resource) (chs : channels)
  (r : BrokerInfo) (count : nat)
  : list event * outcome (BrokerInfo * option error) :=
  match sched with
  | [] => ([], Blocked)
  | c :: sched' =>
    match recv (chs c) with
    | None => BrokerInfo_loop sched' chs r count
    | Some (msg, rest) =>
      match select_case c msg (zero_httpResponse M) r with
      | None => ([ev_recv c], Panicked)
      | Some (res, r') =>
        match err res with
        | Some e => ([ev_recv c], Returned (r', Some e))
        | None =>
          if Nat.eqb (S count) numExpectedResources
          then ([ev_recv c], Returned (r', None))
          else
            let (tr, out) :=
              BrokerInfo_loop sched' (set_channel chs c rest) r' (S count) in
            (ev_recv c :: tr, out)
        end
      end
    end
  end.

(** [BrokerInfo()]: the six [get...()] calls in the order of the source,
    then the loop. *)
Definition RabbitHTTPClient_BrokerInfo (s : RabbitHTTPClient)
  (sched : list Resource)
  : list event * outcome (BrokerInfo * option error) :=
  let (go1, ch_overview) := getOverview M s in
  let (go2, ch_connections) := getConnections M s in
  let (go3, ch_exchanges) := getExchanges M s in
  let (go4, ch_queues) := getQueues M s in
  let (go5, ch_consumers) := getConsumers M s in
  let (go6, ch_bindings) := getBindings M s in
  let chs : channels := fun c =>
    match c with
    | overview => ch_overview
    | connections => ch_connections
    | exchanges => ch_exchanges
    | queues => ch_queues
    | consumers => ch_consumers
    | bindings => ch_bindings
    end in
  let (tr, out) := BrokerInfo_loop sched chs zero_BrokerInfo 0 in
  ((go1 ++ go2 ++ go3 ++ go4 ++ go5 ++ go6 ++ tr)%list, out).

(** The channel [BrokerInfo] and the accessors hold for resource [c]. *)
Definition resource_channel (s : RabbitHTTPClient) (c : Resource)
  : chan (httpResponse M) :=
  match c with
  | overview => snd (getOverview M s)
  | connections => snd (getConnections M s)
  | exchanges => snd (getExchanges M s)
  | queues => snd (getQueues M s)
  | consumers => snd (getConsumers M s)
  | bindings => snd (getBindings M s)
  end.

(** The URI [BrokerInfo] and the accessors fetch resource [c] from. *)
Definition resource_uri (s : RabbitHTTPClient) (c : Resource) : string :=
  match c with
  | overview => uri s ++ "/overview"
  | connections => uri s ++ "/connections"
  | exchanges => uri s ++ "/exchanges"
  | queues => uri s ++ "/queues"
  | consumers => uri s ++ "/consumers"
  | bindings => uri s ++ "/bindings"
  end.

(** The type [BrokerInfo] and the accessors ask resource [c] in. *)
Definition resource_type (c : Resource) : reflect_Type :=
  match c with
  | overview => type_RabbitOverview
  | connections => type_slice_RabbitConnection
  | exchanges => type_slice_RabbitExchange
  | queues => type_slice_RabbitQueue
  | consumers => type_slice_RabbitConsumer
  | bindings => type_slice_RabbitBinding
  end.

(** The completion of the fetch of resource [c]: the message its goroutine
    sends. *)
Definition fetched (s : RabbitHTTPClient) (c : Resource) : httpResponse M :=
  match recv (resource_channel s c) with
  | Some (msg, _) => msg
  | None => zero_httpResponse M
  end.

(** Channel [c] still has a message to deliver. *)
Definition pending (chs : channels) (c : Resource) : bool :=
  match chs c with
  | [] => false
  | _ :: _ => true
  end.

(** The events of a trace that are receives. *)
Definition is_recv (e : event) : Prop :=
  match e with
  | ev_recv _ => True
  | ev_go _ => False
  end.

(** Field [c] of the snapshot [r] is the value [x] points to, [x] being a
    pointer of the type of resource [c]. *)
Definition field_is (r : BrokerInfo) (c : Resource) (x : iface M) : Prop :=
  match c with
  | overview => x = ptr_RabbitOverview M (Overview r)
  | connections => x = ptr_slice_RabbitConnection M (Connections r)
  | exchanges => x = ptr_slice_RabbitExchange M (Exchanges r)
  | queues => x = ptr_slice_RabbitQueue M (Queues r)
  | consumers => x = ptr_slice_RabbitConsumer M (Consumers r)
  | bindings => x = ptr_slice_RabbitBinding M (Bindings r)
  end.

(** The accessor of resource [c] ended by returning the pointee of [x]
    with the error [e]. *)
Definition accessor_returns (s : RabbitHTTPClient) (c : Resource)
  (x : iface M) (e : option error) : Prop :=
  match c with
  | overview =>
    exists v, x = ptr_RabbitOverview M v /\
              RabbitHTTPClient_Overview M s = Returned (v, e)
  | connections =>
    exists v, x = ptr_slice_RabbitConnection M v /\
              RabbitHTTPClient_Connections M s = Returned (v, e)
  | exchanges =>
    exists v, x = ptr_slice_RabbitExchange M v /\
              RabbitHTTPClient_Exchanges M s = Returned (v, e)
  | queues =>
    exists v, x = ptr_slice_RabbitQueue M v /\
              RabbitHTTPClient_Queues M s = Returned (v, e)
  | consumers =>
    exists v, x = ptr_slice_RabbitConsumer M v /\
              RabbitHTTPClient_Consumers M s = Returned (v, e)
  | bindings =>
    exists v, x = ptr_slice_RabbitBinding M v /\
              RabbitHTTPClient_Bindings M s = Returned (v, e)
  end.

(** What holds each time the loop of [BrokerInfo] is entered: a channel is
    drained or still holds the completion of its fetch, [count] counts the
    drained ones and is below six, and the field of every drained channel
    holds what its completion carried. *)
Definition loop_inv (s : RabbitHTTPClient) (chs : channels) (r : BrokerInfo)
  (count : nat) : Prop :=
  (forall c, chs c = [] \/ chs c = [fetched s c]) /\
  count + List.length (filter (pending chs) all_resources) = numExpectedResources /\
  count < numExpectedResources /\
  (forall c, chs c = [] -> field_is r c (result (fetched s c))).

(** What an end of the loop tells, entered with the channels [chs] under
    the schedule [sched]. *)
Definition loop_post (s : RabbitHTTPClient) (sched : list Resource)
  (chs : channels) (out : outcome (BrokerInfo * option error)) : Prop :=
  match out with
  | Panicked => False
  | Blocked => exists c, pending chs c = true /\ ~ In c sched
  | Returned (r', Some e) =>
    exists c, c <> overview /\ In c sched /\ pending chs c = true /\
              err (fetched s c) = Some e
  | Returned (r', None) =>
    (forall c, field_is r' c (result (fetched s c))) /\
    (forall c, c <> overview -> pending chs c = true ->
               err (fetched s c) = None)
  end.

End Aggregator.

(** ** A broker to run the client against

    Message structs cut down to the fields named, a table of what
    [encoding/json] answers on the bodies used, and transports that answer
    from a table of URIs. *)

Module Sample.

Record overview_t : Type := mkOverview { ManagementVersion : string }.
Record connection_t : Type := mkConnection { Name : string; Port : Z }.

Definition dq : string := String (Ascii.ascii_of_nat 34) EmptyString.
Definition quoted (s : string) : string := dq ++ s ++ dq.

Definition body_overview : string :=
  "{" ++ quoted "management_version" ++ ":" ++ quoted "3.6.5" ++ "}".
Definition body_two_connections : string :=
  "[{" ++ quoted "name" ++ ":" ++ quoted "a" ++ "," ++ quoted "port" ++ ":5672},{"
       ++ quoted "name" ++ ":" ++ quoted "b" ++ "," ++ quoted "port" ++ ":5673}]".
(** A connection whose port is a JSON string where the struct has an int. *)
Definition body_bad_port : string :=
  "[{" ++ quoted "name" ++ ":" ++ quoted "a" ++ "," ++ quoted "port" ++ ":"
       ++ quoted "x" ++ "}]".
Definition body_one_name : string :=
  "[{" ++ quoted "name" ++ ":" ++ quoted "n1" ++ "}]".

Definition SyntaxError : error :=
  json_Error "invalid character looking for beginning of value".
Definition UnmarshalTypeError : error :=
  json_Error "json: cannot unmarshal string into Go struct field .port of type int".

(** [encoding/json] on the bodies above. A body that is not JSON is refused
    before anything is stored; a value of the wrong JSON type is skipped,
    the rest is stored, and the first such mismatch is the error. *)
Definition decode_overview : Unmarshaler overview_t := fun data v =>
  if (data =? body_overview)%string then (mkOverview "3.6.5", None)
  else if (data =? "{}")%string then (v, None)
  else (v, Some SyntaxError).

Definition decode_connections : Unmarshaler (list connection_t) := fun data v =>
  if (data =? "[]")%string then ([], None)
  else if (data =? body_two_connections)%string
  then ([mkConnection "a" 5672; mkConnection "b" 5673], None)
  else if (data =? body_bad_port)%string
  then ([mkConnection "a" 0], Some UnmarshalTypeError)
  else (v, Some SyntaxError).

Definition decode_names : Unmarshaler (list string) := fun data v =>
  if (data =? "[]")%string then ([], None)
  else if (data =? body_one_name)%string then (["n1"], None)
  else (v, Some SyntaxError).

Definition schema : Schema :=
  @mkSchema overview_t connection_t string string string string
    (mkOverview "") decode_overview decode_connections
    decode_names decode_names decode_names decode_names.

(** A transport answering from a table; a URI not listed is refused. *)
Fixpoint lookup (table : list (string * or_error Response)) (u : string)
  : or_error Response :=
  match table with
  | [] => Err (url_Error "dial tcp: connection refused")
  | (k, a) :: table' => if (k =? u)%string then a else lookup table' u
  end.

Definition mock (table : list (string * or_error Response)) : RabbitHTTPClient :=
  {| uri := "http://localhost:15672/api";
     client := {| Get := lookup table; Do := fun req => lookup table (URL req) |} |}.

Definition http_NewRequest (method u : string) : or_error Request :=
  Ok {| Method := method; URL := u |}.

Definition ok (body : string) : or_error Response :=
  Ok (mkResponse "200 OK" 200 body).
Definition unavailable : or_error Response :=
  Ok (mkResponse "503 Service Unavailable" 503 "").
Definition timeout : error := url_Error "net/http: request canceled".

Definition api (path : string) : string := "http://localhost:15672/api" ++ path.

(** Every resource answers 200 with a body that decodes. *)
Definition healthy : RabbitHTTPClient :=
  mock [ (api "/overview", ok body_overview);
         (api "/connections", ok body_two_connections);
         (api "/exchanges", ok body_one_name);
         (api "/queues", ok body_one_name);
         (api "/consumers", ok body_one_name);
         (api "/bindings", ok body_one_name) ].

(** As [healthy], with nobody connected. *)
Definition idle : RabbitHTTPClient :=
  mock [ (api "/overview", ok body_overview);
         (api "/connections", ok "[]");
         (api "/exchanges", ok body_one_name);
         (api "/queues", ok body_one_name);
         (api "/consumers", ok "[]");
         (api "/bindings", ok body_one_name) ].

(** Only [/overview] fails, with 503. *)
Definition overview_down : RabbitHTTPClient :=
  mock [ (api "/overview", unavailable);
         (api "/connections", ok body_two_connections);
         (api "/exchanges", ok body_one_name);
         (api "/queues", ok body_one_name);
         (api "/consumers", ok body_one_name);
         (api "/bindings", ok body_one_name) ].

(** Only [/queues] fails, with 503. *)
Definition queues_down : RabbitHTTPClient :=
  mock [ (api "/overview", ok body_overview);
         (api "/connections", ok body_two_connections);
         (api "/exchanges", ok body_one_name);
         (api "/queues", unavailable);
         (api "/consumers", ok body_one_name);
         (api "/bindings", ok body_one_name) ].

(** [/queues] answers 503 and [/bindings] times out. *)
Definition two_down : RabbitHTTPClient :=
  mock [ (api "/overview", ok body_overview);
         (api "/connections", ok body_two_connections);
         (api "/exchanges", ok body_one_name);
         (api "/queues", unavailable);
         (api "/consumers", ok body_one_name);
         (api "/bindings", Err timeout) ].

(** [/connections] answers 200 with a port of the wrong JSON type. *)
Definition mistyped : RabbitHTTPClient :=
  mock [ (api "/overview", ok body_overview);
         (api "/connections", ok body_bad_port);
         (api "/exchanges", ok body_one_name);
         (api "/queues", ok body_one_name);
         (api "/consumers", ok body_one_name);
         (api "/bindings", ok body_one_name) ].

(** DELETE answers 204 for the connection [c1] and 404 for [gone]. *)
Definition deleting : RabbitHTTPClient :=
  mock [ (api "/connections/c1", Ok (mkResponse "204 No Content" 204 ""));
         (api "/connections/gone", Ok (mkResponse "404 Not Found" 404 "")) ].

End Sample.

(** ** More of the aggregator's runs *)

Section AggregatorRuns.

Variable M : Schema.

(** What a run of the loop leaves, entered with the channels [chs], the
    snapshot [r] and the counter [count] under the schedule [sched]: its
    receives [tr] and its end. No channel is received twice, and only
    channels the schedule offers while they hold a message; every receive
    but the last is of a completion whose error the loop saw as nil; a
    snapshot returned holds the received completions and, elsewhere, what
    [r] held. *)
Definition loop_run (s : RabbitHTTPClient) (sched : list Resource)
  (chs : channels M) (r : BrokerInfo M) (count : nat)
  (run : list event * outcome (BrokerInfo M * option error)) : Prop :=
  let (tr, out) := run in
  NoDup tr /\
  (forall c, In (ev_recv c) tr -> In c sched /\ pending chs c = true) /\
  (forall c, c <> overview -> In (ev_recv c) (removelast tr) ->
             err (fetched M s c) = None) /\
  match out with
  | Returned (r', e) =>
    (forall c, In (ev_recv c) tr -> field_is r' c (result (fetched M s c))) /\
    (forall c x, ~ In (ev_recv c) tr -> field_is r c x -> field_is r' c x) /\
    match e with
    | Some e' =>
      exists c, c <> overview /\ err (fetched M s c) = Some e' /\
                tr = (removelast tr ++ [ev_recv c])%list
    | None =>
      count + List.length tr = numExpectedResources /\
      (forall c, c <> overview -> In (ev_recv c) tr ->
                 err (fetched M s c) = None)
    end
  | Panicked => False
  | Blocked =>
    forall c, c <> overview -> In (ev_recv c) tr -> err (fetched M s c) = None
  end.

(** Resource [c] is one of the five the loop tests the error of, and its
    fetch failed. *)
Definition reported_failure (s : RabbitHTTPClient) (c : Resource) : Prop :=
  c <> overview /\ exists e, err (fetched M s c) = Some e.

End AggregatorRuns.

(** ** The custom decoder of [ChannelDetails] *)

Import Ascii.



(** * Properties *)

(** ** Resource deletion *)

Section DeletionFacts.

Variable http_NewRequest : string -> string -> or_error Request.

Lemma status_gate (code : Z) :
  negb (code =? 200)%Z && negb (code =? 204)%Z = false <->
  code = 200%Z \/ code = 204%Z.
Proof.
  destruct (Z.eqb_spec code 200) as [E | N]; simpl.
  - intuition.
  - destruct (Z.eqb_spec code 204) as [E' | N']; simpl; intuition congruence.
Qed.

(** C7. A deletion succeeds (nil error) exactly when the DELETE was built,
    sent and answered with status 200 or 204; any other status gives the
    error made of the status text. So 204 is a success, and 404 an error
    whose text is the status text, containing 404 when that text does. *)
Theorem delResource_success_iff_200_or_204 (s : RabbitHTTPClient) (u : string) :
  (snd (delResource http_NewRequest s u) = None <->
   exists req resp,
     http_NewRequest "DELETE" u = Ok req /\
     Do (client s) req = Ok resp /\
     (StatusCode resp = 200%Z \/ StatusCode resp = 204%Z)) /\
  (forall req resp,
     http_NewRequest "DELETE" u = Ok req ->
     Do (client s) req = Ok resp ->
     (StatusCode resp = 204%Z ->
      snd (delResource http_NewRequest s u) = None) /\
     (StatusCode resp <> 200%Z -> StatusCode resp <> 204%Z ->
      snd (delResource http_NewRequest s u) = Some (errors_New (Status resp))) /\
     (StatusCode resp = 404%Z ->
      exists e, snd (delResource http_NewRequest s u) = Some e /\
                Error e = Status resp /\
                (index 0 "404" (Status resp) <> None ->
                 index 0 "404" (Error e) <> None))) /\
  (forall conn reason,
     CloseConnection http_NewRequest s conn reason =
     delResource http_NewRequest s (uri s ++ "/connections/" ++ conn)).
Proof.
  unfold delResource. split; [ | split ].
  - destruct (http_NewRequest "DELETE" u) as [req | e] eqn:Hnew; simpl.
    + destruct (Do (client s) req) as [resp | e] eqn:Hsend; simpl.
      * destruct (negb (StatusCode resp =? 200)%Z && negb (StatusCode resp =? 204)%Z)
          eqn:G; simpl.
        -- split; [ discriminate | ].
           intros (req' & resp' & Hreq & Hdo & Hcode).
           assert (req' = req) by congruence. subst req'.
           assert (resp' = resp) by congruence. subst resp'.
           apply status_gate in Hcode. congruence.
        -- split; [ intros _ | reflexivity ].
           exists req, resp. now rewrite <- status_gate.
      * split; [ discriminate | ].
        intros (req' & resp' & Hreq & Hdo & _). congruence.
    + split; [ discriminate | ].
      intros (req' & resp' & Hreq & _). discriminate.
  - intros req resp -> ->. repeat split.
    + intros ->. reflexivity.
    + intros N1 N2.
      destruct (Z.eqb_spec (StatusCode resp) 200); [ contradiction | ].
      destruct (Z.eqb_spec (StatusCode resp) 204); [ contradiction | ].
      reflexivity.
    + intros ->. simpl. exists (errors_New (Status resp)). auto.
  - reflexivity.
Qed.

(** C10. [CloseConnection] does not read its [reason]: with the same
    client and connection name, two reasons give the same DELETE request
    and the same outcome. *)
Theorem CloseConnection_reason_irrelevant
  (s : RabbitHTTPClient) (conn r1 r2 : string) :
  CloseConnection http_NewRequest s conn r1 =
  CloseConnection http_NewRequest s conn r2 /\
  Forall (fun req =>
            http_NewRequest "DELETE" (uri s ++ "/connections/" ++ conn) = Ok req)
         (fst (CloseConnection http_NewRequest s conn r1)).
Proof.
  split; [ reflexivity | ].
  unfold CloseConnection, delResource.
  destruct (http_NewRequest "DELETE" (uri s ++ "/connections/" ++ conn))
    as [req | e]; simpl.
  - destruct (Do (client s) req) as [resp | e]; simpl.
    + destruct (negb _ && negb _); simpl; repeat constructor.
    + repeat constructor.
  - constructor.
Qed.

End DeletionFacts.

(** ** The resource fetcher *)

Section FetcherFacts.

Variable M : Schema.
Variable s : RabbitHTTPClient.

Lemma reflect_New_TypeOf (t : reflect_Type) :
  TypeOf (reflect_New M t) = Some t.
Proof. destruct t; reflexivity. Qed.

Lemma json_Unmarshal_TypeOf (data : string) (r : iface M) :
  TypeOf (fst (json_Unmarshal data r)) = TypeOf r.
Proof.
  destruct r; simpl; try reflexivity.
  - destruct (Unmarshal_RabbitOverview M data v); reflexivity.
  - destruct (Unmarshal_RabbitConnections M data v); reflexivity.
  - destruct (Unmarshal_RabbitExchanges M data v); reflexivity.
  - destruct (Unmarshal_RabbitQueues M data v); reflexivity.
  - destruct (Unmarshal_RabbitConsumers M data v); reflexivity.
  - destruct (Unmarshal_RabbitBindings M data v); reflexivity.
Qed.

Lemma getResource_goroutine_sends_once (request : httpRequest) :
  getResource_goroutine M s request = [completion M s request].
Proof.
  unfold getResource_goroutine, completion.
  destruct (Get (client s) (httpRequest_uri request)) as [resp | e];
    [ | reflexivity ].
  destruct (StatusCode resp =? 200)%Z; simpl; [ | reflexivity ].
  destruct (json_Unmarshal (Body resp) (reflect_New M (httpRequest_t request)))
    as [r' [e | ]]; reflexivity.
Qed.

Lemma completion_TypeOf (request : httpRequest) :
  TypeOf (result (completion M s request)) = Some (httpRequest_t request).
Proof.
  unfold completion.
  destruct (Get (client s) (httpRequest_uri request)) as [resp | e]; simpl;
    [ | apply reflect_New_TypeOf ].
  destruct (StatusCode resp =? 200)%Z; simpl.
  - rewrite json_Unmarshal_TypeOf. apply reflect_New_TypeOf.
  - apply reflect_New_TypeOf.
Qed.

(** C4. The one result of a fetch has a nil error exactly when the GET
    succeeded at the transport, the status is 200 and the body decodes; it
    then carries the decoded value. Otherwise the error is the transport's,
    or the one made of the status text when the status is not 200, or the
    decoder's. *)
Theorem getResource_nil_error_iff_200_and_decoded (request : httpRequest) :
  exists msg,
    getResource_goroutine M s request = [msg] /\
    (err msg = None <->
     exists resp,
       Get (client s) (httpRequest_uri request) = Ok resp /\
       StatusCode resp = 200%Z /\
       snd (json_Unmarshal (Body resp) (reflect_New M (httpRequest_t request)))
         = None) /\
    (forall e,
       Get (client s) (httpRequest_uri request) = Err e -> err msg = Some e) /\
    (forall resp,
       Get (client s) (httpRequest_uri request) = Ok resp ->
       StatusCode resp <> 200%Z ->
       exists e, err msg = Some e /\ e = errors_New (Status resp) /\
                 Error e = Status resp) /\
    (forall resp,
       Get (client s) (httpRequest_uri request) = Ok resp ->
       StatusCode resp = 200%Z ->
       result msg =
         fst (json_Unmarshal (Body resp) (reflect_New M (httpRequest_t request))) /\
       err msg =
         snd (json_Unmarshal (Body resp) (reflect_New M (httpRequest_t request)))).
Proof.
  exists (completion M s request).
  split; [ apply getResource_goroutine_sends_once | ].
  unfold completion.
  destruct (Get (client s) (httpRequest_uri request)) as [resp | e] eqn:Hget.
  - destruct (Z.eqb_spec (StatusCode resp) 200) as [E | N]; simpl.
    + repeat split.
      * intros Hnil. exists resp. auto.
      * intros (resp' & Hresp & _ & Hdec). congruence.
      * discriminate.
      * intros resp' Hresp N'. congruence.
      * congruence.
      * congruence.
    + repeat split.
      * discriminate.
      * intros (resp' & Hresp & E' & _). congruence.
      * discriminate.
      * intros resp' Hresp _. exists (errors_New (Status resp')).
        repeat split. congruence.
      * congruence.
      * congruence.
  - simpl. repeat split; try discriminate.
    + intros (resp' & Hresp & _). discriminate.
    + congruence.
Qed.

Lemma completion_failed_before_decoding (request : httpRequest) :
  failed_before_decoding s (httpRequest_uri request) ->
  result (completion M s request) = reflect_New M (httpRequest_t request) /\
  exists e, err (completion M s request) = Some e.
Proof.
  unfold completion. intros [(e & ->) | (resp & -> & Hcode)]; simpl.
  - split; [ reflexivity | eauto ].
  - destruct (Z.eqb_spec (StatusCode resp) 200); [ contradiction | ].
    simpl. split; [ reflexivity | eauto ].
Qed.

Lemma completion_nil_error (request : httpRequest) :
  err (completion M s request) = None ->
  exists resp,
    Get (client s) (httpRequest_uri request) = Ok resp /\
    StatusCode resp = 200%Z /\
    json_Unmarshal (Body resp) (reflect_New M (httpRequest_t request)) =
      (result (completion M s request), None).
Proof.
  unfold completion.
  destruct (Get (client s) (httpRequest_uri request)) as [resp | e];
    [ | discriminate ].
  destruct (Z.eqb_spec (StatusCode resp) 200) as [E | N]; [ | discriminate ].
  simpl. intros Hnil. exists resp. repeat split; auto.
  destruct (json_Unmarshal (Body resp) (reflect_New M (httpRequest_t request)));
    simpl in *. congruence.
Qed.

End FetcherFacts.

(** ** The snapshot aggregator *)

Lemma Resource_eqb_eq (a b : Resource) : Resource_eqb a b = true <-> a = b.
Proof. destruct a, b; simpl; split; congruence. Qed.

Lemma Resource_eqb_neq (a b : Resource) : Resource_eqb a b = false <-> a <> b.
Proof. destruct a, b; simpl; split; congruence. Qed.

Lemma all_resources_NoDup : NoDup all_resources.
Proof.
  unfold all_resources.
  repeat (constructor; [ simpl; intuition discriminate | ]). constructor.
Qed.

Lemma all_resources_In (c : Resource) : In c all_resources.
Proof. destruct c; simpl; auto 10. Qed.

(** Switching one element of a duplicate-free list off shortens the
    filtered list by one. *)
Lemma filter_length_switch_off (f g : Resource -> bool) (c : Resource)
  (l : list Resource) :
  NoDup l -> In c l -> f c = true -> g c = false ->
  (forall x, x <> c -> g x = f x) ->
  List.length (filter f l) = S (List.length (filter g l)).
Proof.
  intros Hnd Hin Hf Hg Hsame.
  induction l as [| x l IH]; [ contradiction | ].
  inversion Hnd as [| ? ? Hx Hl]; subst.
  destruct Hin as [-> | Hin]; simpl.
  - rewrite Hf, Hg. simpl. f_equal.
    f_equal. apply filter_ext_in.
    intros y Hy. symmetry. apply Hsame. intros ->. contradiction.
  - assert (x <> c) as Hxc by (intros ->; contradiction).
    rewrite (Hsame x Hxc).
    destruct (f x); simpl; rewrite (IH Hl Hin); reflexivity.
Qed.

Lemma filter_empty_off (f : Resource -> bool) (l : list Resource) (x : Resource) :
  List.length (filter f l) = 0 -> In x l -> f x = false.
Proof.
  intros Hlen Hin. destruct (f x) eqn:Hfx; [ | reflexivity ].
  assert (In x (filter f l)) as H by (apply filter_In; auto).
  destruct (filter f l); [ contradiction | discriminate ].
Qed.

Section AggregatorFacts.

Variable M : Schema.
Variable s : RabbitHTTPClient.

Lemma resource_channel_fetched (c : Resource) :
  resource_channel M s c = [fetched M s c].
Proof.
  unfold fetched.
  destruct c; simpl; rewrite getResource_goroutine_sends_once; reflexivity.
Qed.

Lemma fetched_completion (c : Resource) :
  fetched M s c =
  completion M s (mkHttpRequest (resource_uri s c) (resource_type c)).
Proof.
  unfold fetched.
  destruct c; simpl; rewrite getResource_goroutine_sends_once; reflexivity.
Qed.

Lemma fetched_TypeOf (c : Resource) :
  TypeOf (result (fetched M s c)) = Some (resource_type c).
Proof. rewrite fetched_completion. apply completion_TypeOf. Qed.

(** A case of the [select] fed a message of its channel's type does not
    panic: it stores the pointee in its own field, leaves the other fields,
    and leaves in [res] the message, or for [overview] what [res] was. *)
Lemma select_case_typed (c : Resource) (msg res : httpResponse M)
  (r : BrokerInfo M) :
  TypeOf (result msg) = Some (resource_type c) ->
  exists r',
    select_case c msg res r =
      Some (if Resource_eqb c overview then res else msg, r') /\
    field_is r' c (result msg) /\
    (forall c' x, c' <> c -> field_is r c' x -> field_is r' c' x).
Proof.
  intros Hty.
  destruct c; destruct (result msg) eqn:Hres; simpl in Hty; try discriminate;
    unfold select_case; rewrite Hres; simpl;
    eexists; (split; [ reflexivity | ]); (split; [ reflexivity | ]);
    intros c' x Hne; destruct c'; simpl; auto; congruence.
Qed.

Lemma pending_set_channel (chs : channels M) (c : Resource) :
  pending (set_channel chs c []) c = false /\
  (forall x, x <> c -> pending (set_channel chs c []) x = pending chs x).
Proof.
  unfold pending, set_channel. split.
  - assert (Resource_eqb c c = true) as -> by (now apply Resource_eqb_eq).
    reflexivity.
  - intros x Hx. apply Resource_eqb_neq in Hx. rewrite Hx. reflexivity.
Qed.

Lemma pending_true (chs : channels M) (c : Resource) :
  pending chs c = true <-> chs c <> [].
Proof. unfold pending. destruct (chs c); split; congruence. Qed.

Lemma pending_false (chs : channels M) (c : Resource) :
  pending chs c = false <-> chs c = [].
Proof. unfold pending. destruct (chs c); split; congruence. Qed.

(** The loop invariant carries over one received completion. *)
Lemma loop_inv_step (chs : channels M) (r r' : BrokerInfo M) (count : nat)
  (c : Resource) :
  loop_inv s chs r count ->
  chs c = [fetched M s c] ->
  field_is r' c (result (fetched M s c)) ->
  (forall c' x, c' <> c -> field_is r c' x -> field_is r' c' x) ->
  S count <> numExpectedResources ->
  loop_inv s (set_channel chs c []) r' (S count).
Proof.
  intros (Hch & Hcnt & Hlt & Hfld) Hc Hset Hkeep Hne.
  destruct (pending_set_channel chs c) as [Hoff Hsame].
  assert (pending chs c = true) as Hon
    by (apply pending_true; rewrite Hc; discriminate).
  pose proof (@filter_length_switch_off (pending chs)
                (pending (set_channel chs c [])) c all_resources
                all_resources_NoDup (all_resources_In c) Hon Hoff Hsame) as Hlen.
  unfold loop_inv, numExpectedResources in *. repeat split.
  - intros x. unfold set_channel.
    destruct (Resource_eqb x c); [ left; reflexivity | apply Hch ].
  - lia.
  - lia.
  - intros x Hx. unfold set_channel in Hx.
    destruct (Resource_eqb x c) eqn:Hxc.
    + apply Resource_eqb_eq in Hxc. subst x. exact Hset.
    + apply Resource_eqb_neq in Hxc. apply Hkeep; auto.
Qed.

(** Every end of the loop, from a state the invariant holds in. *)
Lemma BrokerInfo_loop_post (sched : list Resource) :
  forall (chs : channels M) (r : BrokerInfo M) (count : nat),
    loop_inv s chs r count ->
    loop_post s sched chs (snd (BrokerInfo_loop sched chs r count)).
Proof.
  induction sched as [| c sched IH]; intros chs r count Hinv.
  - simpl. destruct Hinv as (_ & Hcnt & Hlt & _).
    unfold numExpectedResources in *.
    destruct (filter (pending chs) all_resources) as [| c l] eqn:Hf;
      [ simpl in Hcnt; lia | ].
    exists c. split; [ | intros [] ].
    assert (In c (filter (pending chs) all_resources)) as H
      by (rewrite Hf; left; reflexivity).
    apply filter_In in H. tauto.
  - pose proof Hinv as (Hch & Hcnt & Hlt & Hfld).
    simpl. destruct (Hch c) as [Hc | Hc]; rewrite Hc; simpl.
    + (* the case is not ready *)
      specialize (IH chs r count Hinv).
      assert (pending chs c = false) as Hoff by (now apply pending_false).
      destruct (snd (BrokerInfo_loop sched chs r count)) as [[r' [e | ]] | | ];
        simpl in *.
      * destruct IH as (c' & H1 & H2 & H3 & H4). exists c'. auto.
      * exact IH.
      * exact IH.
      * destruct IH as (c' & H1 & H2). exists c'. split; [ exact H1 | ].
        intros [-> | H]; [ congruence | contradiction ].
    + (* the completion of [c] is received *)
      destruct (@select_case_typed c (fetched M s c) (zero_httpResponse M) r
                  (fetched_TypeOf c)) as (r' & Hsel & Hset & Hkeep).
      rewrite Hsel.
      assert (pending chs c = true) as Hon
        by (apply pending_true; rewrite Hc; discriminate).
      destruct (err (if Resource_eqb c overview then zero_httpResponse M
                     else fetched M s c)) as [e | ] eqn:Herr.
      * simpl. exists c. repeat split; auto.
        -- intros ->. simpl in Herr. discriminate.
        -- destruct (Resource_eqb c overview); [ discriminate | exact Herr ].
      * change (count =? 5)%nat with (Nat.eqb (S count) numExpectedResources).
        destruct (Nat.eqb_spec (S count) numExpectedResources) as [Hsix | Hmore].
        -- simpl.
           destruct (pending_set_channel chs c) as [Hoff Hsame].
           pose proof (@filter_length_switch_off (pending chs)
                         (pending (set_channel chs c [])) c all_resources
                         all_resources_NoDup (all_resources_In c)
                         Hon Hoff Hsame) as Hlen.
           assert (forall x, x <> c -> pending chs x = false) as Hrest.
           { intros x Hx. rewrite <- (Hsame x Hx).
             apply filter_empty_off with (l := all_resources);
               [ unfold numExpectedResources in *; lia | apply all_resources_In ]. }
           split.
           ++ intros x. destruct (Resource_eqb x c) eqn:Hxc.
              ** apply Resource_eqb_eq in Hxc. subst x. exact Hset.
              ** apply Resource_eqb_neq in Hxc. apply Hkeep; [ exact Hxc | ].
                 apply Hfld. apply pending_false. auto.
           ++ intros x Hx Hp. destruct (Resource_eqb x c) eqn:Hxc.
              ** apply Resource_eqb_eq in Hxc. subst x.
                 apply Resource_eqb_neq in Hx. rewrite Hx in Herr. exact Herr.
              ** apply Resource_eqb_neq in Hxc. rewrite (Hrest x Hxc) in Hp.
                 discriminate.
        -- pose proof (@loop_inv_step chs r r' count c Hinv Hc Hset Hkeep Hmore) as Hinv'.
           specialize (IH _ _ _ Hinv').
           destruct (pending_set_channel chs c) as [Hoff Hsame].
           destruct (BrokerInfo_loop sched (set_channel chs c []) r' (S count))
             as [tr out]. simpl in *.
           destruct out as [[r'' [e | ]] | | ]; simpl in *.
           ++ destruct IH as (c' & H1 & H2 & H3 & H4). exists c'.
              repeat split; auto.
              destruct (Resource_eqb c' c) eqn:Hcc.
              ** apply Resource_eqb_eq in Hcc. subst c'. exact Hon.
              ** apply Resource_eqb_neq in Hcc. rewrite <- (Hsame c' Hcc).
                 exact H3.
           ++ destruct IH as [H1 H2]. split; [ exact H1 | ].
              intros x Hx Hp. destruct (Resource_eqb x c) eqn:Hxc.
              ** apply Resource_eqb_eq in Hxc. subst x.
                 apply Resource_eqb_neq in Hx. rewrite Hx in Herr. exact Herr.
              ** apply Resource_eqb_neq in Hxc. apply H2; [ exact Hx | ].
                 rewrite (Hsame x Hxc). exact Hp.
           ++ exact IH.
           ++ destruct IH as (c' & H1 & H2). exists c'.
              assert (c' <> c) as Hcc by (intros ->; congruence).
              split; [ rewrite <- (Hsame c' Hcc); exact H1 | ].
              intros [-> | H]; [ congruence | contradiction ].
Qed.

Lemma BrokerInfo_unfold (sched : list Resource) :
  RabbitHTTPClient_BrokerInfo M s sched =
  ((map ev_go (map (resource_uri s) all_resources) ++
    fst (BrokerInfo_loop sched (resource_channel M s) (zero_BrokerInfo M) 0))%list,
   snd (BrokerInfo_loop sched (resource_channel M s) (zero_BrokerInfo M) 0)).
Proof.
  unfold RabbitHTTPClient_BrokerInfo, getOverview, getConnections, getExchanges,
    getQueues, getConsumers, getBindings, getResource.
  change (fun c : Resource =>
            match c with
            | overview => getResource_goroutine M s _
            | connections => getResource_goroutine M s _
            | exchanges => getResource_goroutine M s _
            | queues => getResource_goroutine M s _
            | consumers => getResource_goroutine M s _
            | bindings => getResource_goroutine M s _
            end) with (resource_channel M s).
  destruct (BrokerInfo_loop sched (resource_channel M s) (zero_BrokerInfo M) 0).
  reflexivity.
Qed.

Lemma loop_inv_initial :
  loop_inv s (resource_channel M s) (zero_BrokerInfo M) 0.
Proof.
  unfold loop_inv. repeat split.
  - intros c. right. apply resource_channel_fetched.
  - unfold all_resources. simpl filter. unfold pending.
    rewrite !resource_channel_fetched. reflexivity.
  - unfold numExpectedResources. lia.
  - intros c Hc. rewrite resource_channel_fetched in Hc. discriminate.
Qed.

Lemma pending_initial (c : Resource) : pending (resource_channel M s) c = true.
Proof. unfold pending. rewrite resource_channel_fetched. reflexivity. Qed.

(** Every end of [BrokerInfo]. *)
Lemma BrokerInfo_post (sched : list Resource) :
  loop_post s sched (resource_channel M s)
    (snd (RabbitHTTPClient_BrokerInfo M s sched)).
Proof.
  rewrite BrokerInfo_unfold. simpl.
  apply BrokerInfo_loop_post. apply loop_inv_initial.
Qed.

(** When every channel gets its turn, [BrokerInfo] returns. *)
Lemma BrokerInfo_returns (sched : list Resource) :
  (forall c, In c sched) ->
  exists r e, snd (RabbitHTTPClient_BrokerInfo M s sched) = Returned (r, e).
Proof.
  intros Hall. pose proof (BrokerInfo_post sched) as Hpost.
  destruct (snd (RabbitHTTPClient_BrokerInfo M s sched)) as [[r e] | | ];
    simpl in Hpost.
  - exists r, e. reflexivity.
  - contradiction.
  - destruct Hpost as (c & _ & Hc). destruct (Hc (Hall c)).
Qed.

(** The five cases written [res = <-ch] report their error: when one of
    those fetches is the only one to fail, its error is what [BrokerInfo]
    returns. *)
Lemma BrokerInfo_returns_sibling_error (sched : list Resource) (c : Resource)
  (e : error) :
  (forall c', In c' sched) ->
  c <> overview ->
  err (fetched M s c) = Some e ->
  (forall c', c' <> c -> err (fetched M s c') = None) ->
  exists r, snd (RabbitHTTPClient_BrokerInfo M s sched) = Returned (r, Some e).
Proof.
  intros Hall Hc He Hothers.
  destruct (BrokerInfo_returns sched Hall) as (r & e' & Hret).
  pose proof (BrokerInfo_post sched) as Hpost. rewrite Hret in Hpost.
  exists r. rewrite Hret. destruct e' as [e' | ]; simpl in Hpost.
  - destruct Hpost as (c' & _ & _ & _ & He').
    destruct (Resource_eqb c' c) eqn:Hcc.
    + apply Resource_eqb_eq in Hcc. subst c'. congruence.
    + apply Resource_eqb_neq in Hcc. rewrite (Hothers c' Hcc) in He'.
      discriminate.
  - destruct Hpost as [_ Hnil].
    rewrite (Hnil c Hc (pending_initial c)) in He. discriminate.
Qed.

(** The case written [res := <-overview] does not: when the fetch of the
    overview is the only one to fail, [BrokerInfo] returns a nil error. *)
Lemma BrokerInfo_drops_overview_error (sched : list Resource) :
  (forall c, In c sched) ->
  (forall c, c <> overview -> err (fetched M s c) = None) ->
  exists r, snd (RabbitHTTPClient_BrokerInfo M s sched) = Returned (r, None).
Proof.
  intros Hall Hothers.
  destruct (BrokerInfo_returns sched Hall) as (r & e' & Hret).
  pose proof (BrokerInfo_post sched) as Hpost. rewrite Hret in Hpost.
  exists r. rewrite Hret. destruct e' as [e' | ]; [ | reflexivity ].
  simpl in Hpost. destruct Hpost as (c' & Hc' & _ & _ & He').
  rewrite (Hothers c' Hc') in He'. discriminate.
Qed.

Lemma BrokerInfo_loop_receives (sched : list Resource) :
  forall (chs : channels M) (r : BrokerInfo M) (count : nat),
    Forall is_recv (fst (BrokerInfo_loop sched chs r count)).
Proof.
  induction sched as [| c sched IH]; intros chs r count; simpl.
  - constructor.
  - destruct (recv (chs c)) as [[msg rest] | ]; [ | apply IH ].
    destruct (select_case c msg (zero_httpResponse M) r) as [[res r'] | ];
      [ | repeat constructor ].
    destruct (err res); [ repeat constructor | ].
    destruct (count =? 5)%nat; [ repeat constructor | ].
    specialize (IH (set_channel chs c rest) r' (S count)).
    destruct (BrokerInfo_loop sched (set_channel chs c rest) r' (S count)).
    simpl in *. constructor; [ exact I | exact IH ].
Qed.

(** An accessor returns what the completion of its one fetch carries. *)
Lemma accessor_returns_fetched (c : Resource) :
  accessor_returns s c (result (fetched M s c)) (err (fetched M s c)).
Proof.
  pose proof (fetched_TypeOf c) as Hty. unfold fetched in *.
  destruct c; simpl in *;
    unfold RabbitHTTPClient_Overview, RabbitHTTPClient_Connections,
      RabbitHTTPClient_Exchanges, RabbitHTTPClient_Queues,
      RabbitHTTPClient_Consumers, RabbitHTTPClient_Bindings, accessor;
    simpl; rewrite getResource_goroutine_sends_once in *; simpl in *;
    destruct (result (completion M s _)) eqn:Hres; simpl in Hty;
    try discriminate; eexists; split; reflexivity.
Qed.

End AggregatorFacts.

(** ** What the aggregator and the accessors promise *)

Section AggregatorClaims.

Variable M : Schema.
Variable s : RabbitHTTPClient.

(** C3, amended. When all six fetches succeed and every channel gets its
    turn, [BrokerInfo] returns a nil error and a snapshot whose six fields
    each hold the value its own fetch decoded from a 200 response. A field
    is then empty exactly when the decoded value is. *)
Theorem BrokerInfo_all_fetches_succeed (sched : list Resource) :
  (forall c, In c sched) ->
  (forall c, err (fetched M s c) = None) ->
  exists r,
    snd (RabbitHTTPClient_BrokerInfo M s sched) = Returned (r, None) /\
    forall c,
      field_is r c (result (fetched M s c)) /\
      exists resp,
        Get (client s) (resource_uri s c) = Ok resp /\
        StatusCode resp = 200%Z /\
        json_Unmarshal (Body resp) (reflect_New M (resource_type c)) =
          (result (fetched M s c), None).
Proof.
  intros Hall Hok.
  destruct (BrokerInfo_drops_overview_error M s sched Hall) as (r & Hret).
  { intros c _. apply Hok. }
  exists r. split; [ exact Hret | ].
  pose proof (BrokerInfo_post M s sched) as Hpost.
  rewrite Hret in Hpost. simpl in Hpost. destruct Hpost as [Hfld _].
  intros c. split; [ apply Hfld | ].
  specialize (Hok c). rewrite fetched_completion in *.
  apply completion_nil_error in Hok. exact Hok.
Qed.

(** C5. When exactly two of the six fetches fail and every channel gets
    its turn, [BrokerInfo] returns a non-nil error, and that error is the
    one of the first or the one of the second failed fetch. *)
Theorem BrokerInfo_two_failures_returns_one_of_them
  (sched : list Resource) (c1 c2 : Resource) (e1 e2 : error) :
  (forall c, In c sched) ->
  c1 <> c2 ->
  err (fetched M s c1) = Some e1 ->
  err (fetched M s c2) = Some e2 ->
  (forall c, c <> c1 -> c <> c2 -> err (fetched M s c) = None) ->
  exists r e,
    snd (RabbitHTTPClient_BrokerInfo M s sched) = Returned (r, Some e) /\
    (e = e1 \/ e = e2).
Proof.
  intros Hall Hne H1 H2 Hothers.
  destruct (BrokerInfo_returns M s sched Hall) as (r & e & Hret).
  pose proof (BrokerInfo_post M s sched) as Hpost. rewrite Hret in Hpost.
  destruct e as [e | ]; simpl in Hpost.
  - exists r, e. split; [ exact Hret | ].
    destruct Hpost as (c & _ & _ & _ & He).
    destruct (Resource_eqb c c1) eqn:Hc1.
    { apply Resource_eqb_eq in Hc1. subst c. left. congruence. }
    destruct (Resource_eqb c c2) eqn:Hc2.
    { apply Resource_eqb_eq in Hc2. subst c. right. congruence. }
    apply Resource_eqb_neq in Hc1, Hc2.
    rewrite (Hothers c Hc1 Hc2) in He. discriminate.
  - destruct Hpost as [_ Hnil].
    destruct (Resource_eqb c1 overview) eqn:Ho.
    + apply Resource_eqb_eq in Ho. subst c1.
      assert (c2 <> overview) as Hc2 by congruence.
      rewrite (Hnil c2 Hc2 (pending_initial M s c2)) in H2. discriminate.
    + apply Resource_eqb_neq in Ho.
      rewrite (Hnil c1 Ho (pending_initial M s c1)) in H1. discriminate.
Qed.

(** C6. Each accessor returns the value and the error that the one message
    of its fetch carries, as they are. For connections answered 200 with a
    body decoding to two records, the accessor returns those two records
    and a nil error. *)
Theorem accessor_returns_what_its_fetch_produced :
  (forall c,
     resource_channel M s c = [fetched M s c] /\
     accessor_returns s c (result (fetched M s c)) (err (fetched M s c))) /\
  (forall resp c1 c2,
     Get (client s) (uri s ++ "/connections") = Ok resp ->
     StatusCode resp = 200%Z ->
     Unmarshal_RabbitConnections M (Body resp) [] = ([c1; c2], None) ->
     RabbitHTTPClient_Connections M s = Returned ([c1; c2], None)).
Proof.
  split.
  - intros c. split;
      [ apply resource_channel_fetched | apply accessor_returns_fetched ].
  - intros resp c1 c2 Hget Hcode Hdec.
    destruct (accessor_returns_fetched M s connections) as (v & Hv & Hret).
    rewrite Hret. rewrite fetched_completion in *.
    unfold completion in *. simpl in *. rewrite Hget in *.
    rewrite Hcode in *. simpl in *. rewrite Hdec in *. simpl in *.
    congruence.
Qed.

(** C8. In every run of [BrokerInfo], whatever the fetches answer and
    whatever the schedule, the six goroutines are started first, in the
    order of the source, and everything after is a receive: no fetch is
    started after a result has been taken. *)
Theorem BrokerInfo_starts_all_fetches_first (sched : list Resource) :
  exists recvs,
    fst (RabbitHTTPClient_BrokerInfo M s sched) =
      (map ev_go (map (resource_uri s) all_resources) ++ recvs)%list /\
    Forall is_recv recvs.
Proof.
  rewrite BrokerInfo_unfold. simpl fst.
  eexists. split; [ reflexivity | apply BrokerInfo_loop_receives ].
Qed.

(** C9, amended. A fetch sends one message; its result is a pointer of the
    requested type, to the zero value when the fetch failed before decoding
    (transport error or status other than 200). So no accessor and no run
    of [BrokerInfo] panics, and on such a failure an accessor returns the
    zero value of its type with the error. After a 200 the result is what
    the decoder left in the value, also when the decoding failed. *)
Theorem getResource_sends_one_typed_result :
  (forall request,
     exists msg,
       getResource_goroutine M s request = [msg] /\
       TypeOf (result msg) = Some (httpRequest_t request) /\
       (failed_before_decoding s (httpRequest_uri request) ->
        result msg = reflect_New M (httpRequest_t request)) /\
       (forall resp,
          Get (client s) (httpRequest_uri request) = Ok resp ->
          StatusCode resp = 200%Z ->
          result msg =
            fst (json_Unmarshal (Body resp)
                   (reflect_New M (httpRequest_t request))))) /\
  (forall c, exists (x : iface M) e, accessor_returns s c x e) /\
  (forall sched, snd (RabbitHTTPClient_BrokerInfo M s sched) <> Panicked) /\
  (forall c,
     failed_before_decoding s (resource_uri s c) ->
     exists e,
       accessor_returns s c (reflect_New M (resource_type c)) (Some e)).
Proof.
  repeat split.
  - intros request. exists (completion M s request). repeat split.
    + apply getResource_goroutine_sends_once.
    + apply completion_TypeOf.
    + intros Hfail. apply completion_failed_before_decoding. exact Hfail.
    + intros resp Hget Hcode. unfold completion. rewrite Hget.
      destruct (Z.eqb_spec (StatusCode resp) 200); [ reflexivity | contradiction ].
  - intros c. eexists. eexists. apply accessor_returns_fetched.
  - intros sched Hpanic. pose proof (BrokerInfo_post M s sched) as Hpost.
    rewrite Hpanic in Hpost. exact Hpost.
  - intros c Hfail.
    pose proof (accessor_returns_fetched M s c) as Hret.
    rewrite fetched_completion in Hret.
    destruct (completion_failed_before_decoding M
                (mkHttpRequest (resource_uri s c) (resource_type c)) Hfail)
      as (Hzero & e & He).
    simpl in Hzero. rewrite Hzero, He in Hret. exists e. exact Hret.
Qed.

End AggregatorClaims.

(** ** Runs against the sample broker *)

Lemma every_resource_scheduled : forall c, In c all_resources.
Proof. exact all_resources_In. Qed.

Lemma every_resource_scheduled_backwards : forall c, In c (rev all_resources).
Proof. intros c. destruct c; simpl; auto 10. Qed.

(** C1. The fetch of the overview answers 503 Service Unavailable and the
    other five succeed: [BrokerInfo] returns a nil error, both when the
    overview completes first and when it completes last, where the claim
    has it return the 503 error. The case of the overview binds the message
    to a variable of its own, so the test of [res.err] never sees it. *)
Theorem BrokerInfo_overview_error_is_dropped :
  err (fetched Sample.schema Sample.overview_down overview) =
    Some (errors_New "503 Service Unavailable") /\
  (exists r,
     snd (RabbitHTTPClient_BrokerInfo Sample.schema Sample.overview_down
            all_resources) = Returned (r, None)) /\
  (exists r,
     snd (RabbitHTTPClient_BrokerInfo Sample.schema Sample.overview_down
            (rev all_resources)) = Returned (r, None)).
Proof.
  split; [ reflexivity | ].
  split; eexists; vm_compute; reflexivity.
Qed.

(** C2. With the overview answering 503 and the other five succeeding,
    [BrokerInfo] returns a nil error with a snapshot whose [Overview] is the
    zero value no successful fetch stands behind. *)
Theorem BrokerInfo_nil_error_with_unfetched_overview :
  err (fetched Sample.schema Sample.overview_down overview) =
    Some (errors_New "503 Service Unavailable") /\
  snd (RabbitHTTPClient_BrokerInfo Sample.schema Sample.overview_down
         all_resources) =
    Returned
      (mkBrokerInfo Sample.schema (zero_RabbitOverview Sample.schema)
         [Sample.mkConnection "a" 5672; Sample.mkConnection "b" 5673]
         ["n1"] ["n1"] ["n1"] ["n1"],
       None).
Proof. split; vm_compute; reflexivity. Qed.

(** C3, as stated, fails: all six fetches of the idle broker succeed, and
    the snapshot returned has empty [Connections] and [Consumers], the
    lists the broker sent. *)
Lemma BrokerInfo_success_with_empty_fields :
  (forall c, err (fetched Sample.schema Sample.idle c) = None) /\
  exists r,
    snd (RabbitHTTPClient_BrokerInfo Sample.schema Sample.idle all_resources) =
      Returned (r, None) /\
    Connections r = Connections (zero_BrokerInfo Sample.schema) /\
    Consumers r = Consumers (zero_BrokerInfo Sample.schema).
Proof.
  split.
  - intros c. destruct c; vm_compute; reflexivity.
  - eexists. split; [ vm_compute; reflexivity | split; reflexivity ].
Qed.

Lemma BrokerInfo_all_fetches_succeed_witness :
  (forall c, In c all_resources) /\
  (forall c, err (fetched Sample.schema Sample.healthy c) = None) /\
  exists r,
    snd (RabbitHTTPClient_BrokerInfo Sample.schema Sample.healthy all_resources) =
      Returned (r, None) /\
    forall c,
      field_is r c (result (fetched Sample.schema Sample.healthy c)) /\
      exists resp,
        Get (client Sample.healthy) (resource_uri Sample.healthy c) = Ok resp /\
        StatusCode resp = 200%Z /\
        json_Unmarshal (Body resp) (reflect_New Sample.schema (resource_type c)) =
          (result (fetched Sample.schema Sample.healthy c), None).
Proof.
  assert (forall c, err (fetched Sample.schema Sample.healthy c) = None) as Hok
    by (intros c; destruct c; vm_compute; reflexivity).
  split; [ exact every_resource_scheduled | ].
  split; [ exact Hok | ].
  exact (BrokerInfo_all_fetches_succeed Sample.schema Sample.healthy
           all_resources every_resource_scheduled Hok).
Defined.

Lemma getResource_nil_error_iff_200_and_decoded_witness :
  exists msg,
    getResource_goroutine Sample.schema Sample.healthy
      (mkHttpRequest (Sample.api "/connections") type_slice_RabbitConnection) =
      [msg] /\
    err msg = None.
Proof.
  destruct (getResource_nil_error_iff_200_and_decoded Sample.schema
              Sample.healthy
              (mkHttpRequest (Sample.api "/connections")
                 type_slice_RabbitConnection))
    as (msg & Hsend & Hiff & _).
  exists msg. split; [ exact Hsend | ].
  apply Hiff. exists (mkResponse "200 OK" 200 Sample.body_two_connections).
  repeat split; vm_compute; reflexivity.
Defined.

Lemma BrokerInfo_two_failures_returns_one_of_them_witness :
  exists r e,
    snd (RabbitHTTPClient_BrokerInfo Sample.schema Sample.two_down
           (rev all_resources)) = Returned (r, Some e) /\
    (e = errors_New "503 Service Unavailable" \/ e = Sample.timeout).
Proof.
  apply (BrokerInfo_two_failures_returns_one_of_them Sample.schema
           Sample.two_down (rev all_resources) (c1 := queues) (c2 := bindings)).
  - exact every_resource_scheduled_backwards.
  - discriminate.
  - vm_compute; reflexivity.
  - vm_compute; reflexivity.
  - intros c H1 H2. destruct c; try (vm_compute; reflexivity); congruence.
Defined.

Lemma accessor_returns_what_its_fetch_produced_witness :
  RabbitHTTPClient_Connections Sample.schema Sample.healthy =
  Returned ([Sample.mkConnection "a" 5672; Sample.mkConnection "b" 5673], None).
Proof.
  apply (proj2 (accessor_returns_what_its_fetch_produced Sample.schema
                  Sample.healthy)
           (mkResponse "200 OK" 200 Sample.body_two_connections));
    vm_compute; reflexivity.
Defined.

Lemma delResource_success_iff_200_or_204_witness :
  snd (delResource Sample.http_NewRequest Sample.deleting
         (Sample.api "/connections/c1")) = None /\
  exists e,
    snd (delResource Sample.http_NewRequest Sample.deleting
           (Sample.api "/connections/gone")) = Some e /\
    index 0 "404" (Error e) <> None.
Proof.
  split.
  - apply (proj1 (delResource_success_iff_200_or_204 Sample.http_NewRequest
                    Sample.deleting (Sample.api "/connections/c1"))).
    exists (mkRequest "DELETE" (Sample.api "/connections/c1")),
           (mkResponse "204 No Content" 204 "").
    repeat split; try (vm_compute; reflexivity). right. reflexivity.
  - destruct (proj1 (proj2 (delResource_success_iff_200_or_204
                              Sample.http_NewRequest Sample.deleting
                              (Sample.api "/connections/gone")))
                (mkRequest "DELETE" (Sample.api "/connections/gone"))
                (mkResponse "404 Not Found" 404 ""))
      as (_ & _ & H404); try (vm_compute; reflexivity).
    destruct (H404 eq_refl) as (e & He & _ & Htext).
    exists e. split; [ exact He | ].
    apply Htext. vm_compute. discriminate.
Defined.

(** C9, as stated, fails: [/connections] answers 200 with a port of the
    wrong JSON type; the decoder keeps the record it could store and
    reports the mismatch, and the accessor returns that record, not the
    zero value, with the error. *)
Lemma accessor_keeps_partly_decoded_value :
  Get (client Sample.mistyped) (resource_uri Sample.mistyped connections) =
    Ok (mkResponse "200 OK" 200 Sample.body_bad_port) /\
  RabbitHTTPClient_Connections Sample.schema Sample.mistyped =
    Returned ([Sample.mkConnection "a" 0], Some Sample.UnmarshalTypeError) /\
  result (fetched Sample.schema Sample.mistyped connections) <>
    reflect_New Sample.schema type_slice_RabbitConnection.
Proof.
  split; [ vm_compute; reflexivity | ].
  split; [ vm_compute; reflexivity | ].
  vm_compute. discriminate.
Qed.

Lemma getResource_sends_one_typed_result_witness :
  failed_before_decoding Sample.queues_down
    (resource_uri Sample.queues_down queues) /\
  exists e,
    accessor_returns Sample.queues_down queues
      (reflect_New Sample.schema (resource_type queues)) (Some e).
Proof.
  assert (failed_before_decoding Sample.queues_down
            (resource_uri Sample.queues_down queues)) as Hfail.
  { right. exists (mkResponse "503 Service Unavailable" 503 "").
    split; [ vm_compute; reflexivity | discriminate ]. }
  split; [ exact Hfail | ].
  destruct (getResource_sends_one_typed_result Sample.schema Sample.queues_down)
    as (_ & _ & _ & Hzero).
  exact (Hzero queues Hfail).
Defined.

(** ** Every run of the aggregator *)

Section AggregatorRunFacts.

Variable M : Schema.
Variable s : RabbitHTTPClient.

Lemma ev_recv_In_singleton (c c' : Resource) :
  In (ev_recv c') [ev_recv c] -> c' = c.
Proof. intros [H | []]. congruence. Qed.

Lemma BrokerInfo_loop_run (sched : list Resource) :
  forall (chs : channels M) (r : BrokerInfo M) (count : nat),
    loop_inv s chs r count ->
    loop_run s sched chs r count (BrokerInfo_loop sched chs r count).
Proof.
  induction sched as [| c sched IH]; intros chs r count Hinv.
  - simpl. repeat split; try constructor; intros; contradiction.
  - pose proof Hinv as (Hch & Hcnt & Hlt & Hfld).
    simpl. destruct (Hch c) as [Hc | Hc]; rewrite Hc; simpl.
    + specialize (IH chs r count Hinv).
      destruct (BrokerInfo_loop sched chs r count) as [tr out].
      unfold loop_run in *. destruct IH as (H1 & H2 & H3 & H4).
      repeat split; auto.
      * right. apply H2. assumption.
      * apply H2. assumption.
    + destruct (@select_case_typed M c (fetched M s c) (zero_httpResponse M) r
                  (fetched_TypeOf M s c)) as (r' & Hsel & Hset & Hkeep).
      rewrite Hsel.
      assert (pending chs c = true) as Hon
        by (apply pending_true; rewrite Hc; discriminate).
      assert (NoDup [ev_recv c]) as Hone
        by (constructor; [ intros [] | constructor ]).
      destruct (err (if Resource_eqb c overview then zero_httpResponse M
                     else fetched M s c)) as [e | ] eqn:Herr.
      * (* the error is returned *)
        simpl. repeat split; auto.
        -- left. apply ev_recv_In_singleton in H. congruence.
        -- apply ev_recv_In_singleton in H. congruence.
        -- intros c' _ [].
        -- intros c' H. apply ev_recv_In_singleton in H. subst c'. exact Hset.
        -- intros c' x H. apply Hkeep. intros ->. apply H. left. reflexivity.
        -- exists c. repeat split.
           ++ intros ->. simpl in Herr. discriminate.
           ++ destruct (Resource_eqb c overview); [ discriminate | exact Herr ].
      * change (count =? 5)%nat with (Nat.eqb (S count) numExpectedResources).
        assert (c <> overview -> err (fetched M s c) = None) as Hsib.
        { intros Hne. apply Resource_eqb_neq in Hne. rewrite Hne in Herr.
          exact Herr. }
        destruct (Nat.eqb_spec (S count) numExpectedResources) as [Hsix | Hmore].
        -- simpl. repeat split; auto.
           ++ left. apply ev_recv_In_singleton in H. congruence.
           ++ apply ev_recv_In_singleton in H. congruence.
           ++ intros c' _ [].
           ++ intros c' H. apply ev_recv_In_singleton in H. subst c'. exact Hset.
           ++ intros c' x H. apply Hkeep. intros ->. apply H. left. reflexivity.
           ++ unfold numExpectedResources in *. simpl. lia.
           ++ intros c' Hne H. apply ev_recv_In_singleton in H. subst c'. auto.
        -- pose proof (@loop_inv_step M s chs r r' count c Hinv Hc Hset Hkeep
                         Hmore) as Hinv'.
           specialize (IH _ _ _ Hinv').
           destruct (pending_set_channel chs c) as [Hoff Hsame].
           destruct (BrokerInfo_loop sched (set_channel chs c []) r' (S count))
             as [tr out].
           unfold loop_run in *. destruct IH as (H1 & H2 & H3 & H4).
           assert (~ In (ev_recv c) tr) as Hfresh.
           { intros H. apply H2 in H. destruct H as [_ H]. congruence. }
           assert (forall c', In (ev_recv c') (ev_recv c :: tr) ->
                              c' = c \/ In (ev_recv c') tr) as Hsplit.
           { intros c' [H | H]; [ left; congruence | right; exact H ]. }
           assert (forall c', c' <> overview ->
                              In (ev_recv c') (removelast (ev_recv c :: tr)) ->
                              err (fetched M s c') = None) as Hbefore.
           { intros c' Hne H. simpl in H. destruct tr as [| ev tr];
               [ contradiction | ].
             destruct H as [H | H]; [ | apply H3; assumption ].
             assert (c' = c) by congruence. subst c'. auto. }
           split; [ constructor; assumption | ].
           split.
           { intros c' H. destruct (Hsplit c' H) as [-> | Hin].
             - split; [ left; reflexivity | exact Hon ].
             - destruct (H2 c' Hin) as [Hs Hp]. split; [ right; exact Hs | ].
               assert (c' <> c) as Hcc by (intros ->; congruence).
               rewrite <- (Hsame c' Hcc). exact Hp. }
           split; [ exact Hbefore | ].
           destruct out as [[r'' e] | | ].
           ++ destruct H4 as (Hgot & Hframe & Hend).
              split.
              { intros c' H. destruct (Hsplit c' H) as [-> | Hin].
                - apply Hframe; assumption.
                - apply Hgot. exact Hin. }
              split.
              { intros c' x H Hx. apply Hframe.
                - intros Hin. apply H. right. exact Hin.
                - apply Hkeep; [ | exact Hx ].
                  intros ->. apply H. left. reflexivity. }
              destruct e as [e | ].
              ** destruct Hend as (c' & Hne & He & Hlast). exists c'.
                 repeat split; auto.
                 destruct tr as [| ev tr];
                   [ destruct (removelast []); discriminate | ].
                 change (removelast (ev_recv c :: ev :: tr))
                   with (ev_recv c :: removelast (ev :: tr)).
                 simpl. f_equal. exact Hlast.
              ** destruct Hend as [Hlen Hall]. split.
                 { unfold numExpectedResources in *. simpl. lia. }
                 intros c' Hne H. destruct (Hsplit c' H) as [-> | Hin]; auto.
           ++ exact H4.
           ++ intros c' Hne H. destruct (Hsplit c' H) as [-> | Hin]; auto.
Qed.

End AggregatorRunFacts.

Section AggregatorRunClaims.

Variable M : Schema.
Variable s : RabbitHTTPClient.

Lemma BrokerInfo_loop_reports (sched : list Resource) :
  forall (chs : channels M) (r : BrokerInfo M) (count : nat) (c : Resource),
    loop_inv s chs r count ->
    In c sched -> pending chs c = true -> reported_failure M s c ->
    exists r' e, snd (BrokerInfo_loop sched chs r count) = Returned (r', Some e).
Proof.
  induction sched as [| c0 sched IH]; intros chs r count c Hinv Hin Hon Hfail;
    [ contradiction | ].
  pose proof Hinv as (Hch & Hcnt & Hlt & Hfld).
  destruct Hfail as [Hne (e & He)].
  simpl. destruct (Hch c0) as [Hc0 | Hc0]; rewrite Hc0; simpl.
  - assert (c0 <> c) as Hcc.
    { intros ->. apply pending_false in Hc0. congruence. }
    destruct Hin as [-> | Hin]; [ contradiction | ].
    apply (IH chs r count c); auto. split; eauto.
  - destruct (@select_case_typed M c0 (fetched M s c0) (zero_httpResponse M) r
                (fetched_TypeOf M s c0)) as (r' & Hsel & Hset & Hkeep).
    rewrite Hsel.
    destruct (err (if Resource_eqb c0 overview then zero_httpResponse M
                   else fetched M s c0)) as [e0 | ] eqn:Herr.
    + simpl. eauto.
    + assert (c0 <> c) as Hcc.
      { intros ->. apply Resource_eqb_neq in Hne. rewrite Hne in Herr.
        congruence. }
      destruct Hin as [-> | Hin]; [ contradiction | ].
      assert (pending chs c0 = true) as Hon0
        by (apply pending_true; rewrite Hc0; discriminate).
      destruct (pending_set_channel chs c0) as [Hoff Hsame].
      pose proof (@filter_length_switch_off (pending chs)
                    (pending (set_channel chs c0 [])) c0 all_resources
                    all_resources_NoDup (all_resources_In c0)
                    Hon0 Hoff Hsame) as Hlen.
      change (count =? 5)%nat with (Nat.eqb (S count) numExpectedResources).
      destruct (Nat.eqb_spec (S count) numExpectedResources) as [Hsix | Hmore].
      * exfalso.
        assert (pending (set_channel chs c0 []) c = false) as Hnone.
        { apply filter_empty_off with (l := all_resources);
            [ unfold numExpectedResources in *; lia | apply all_resources_In ]. }
        rewrite Hsame in Hnone by auto. congruence.
      * pose proof (@loop_inv_step M s chs r r' count c0 Hinv Hc0 Hset Hkeep
                      Hmore) as Hinv'.
        destruct (IH (set_channel chs c0 []) r' (S count) c Hinv' Hin)
          as (r'' & e'' & Hret).
        { rewrite Hsame by auto. exact Hon. }
        { split; eauto. }
        destruct (BrokerInfo_loop sched (set_channel chs c0 []) r' (S count))
          as [tr out]. simpl in *. eauto.
Qed.

Lemma recv_in_trace (c : Resource) (uris : list string) (tr : list event) :
  In (ev_recv c) (map ev_go uris ++ tr) <-> In (ev_recv c) tr.
Proof.
  rewrite in_app_iff. split; [ | auto ].
  intros [H | H]; [ | exact H ].
  apply in_map_iff in H. destruct H as (u & Hu & _). discriminate.
Qed.

(** A run of [BrokerInfo] is the six starts and a run of the loop from the
    six fresh channels. *)
Lemma BrokerInfo_run (sched : list Resource) :
  exists tr out,
    RabbitHTTPClient_BrokerInfo M s sched =
      ((map ev_go (map (resource_uri s) all_resources) ++ tr)%list, out) /\
    Forall is_recv tr /\
    loop_run s sched (resource_channel M s) (zero_BrokerInfo M) 0 (tr, out).
Proof.
  pose proof (@BrokerInfo_loop_run M s sched _ _ _ (loop_inv_initial M s)) as Hrun.
  pose proof (BrokerInfo_loop_receives sched (resource_channel M s)
                (zero_BrokerInfo M) 0) as Hrecv.
  rewrite BrokerInfo_unfold.
  destruct (BrokerInfo_loop sched (resource_channel M s) (zero_BrokerInfo M) 0)
    as [tr out].
  exists tr, out. auto.
Qed.

(** Six receives without a repeat are one receive of each channel. *)
Lemma six_receives_are_all (tr : list event) :
  NoDup tr -> Forall is_recv tr -> List.length tr = numExpectedResources ->
  forall c, In (ev_recv c) tr.
Proof.
  intros Hnd Hrecv Hlen c.
  apply (@NoDup_length_incl event tr (map ev_recv all_resources)); auto.
  - rewrite Hlen. reflexivity.
  - intros ev Hev. rewrite Forall_forall in Hrecv. specialize (Hrecv ev Hev).
    destruct ev as [u | c']; [ contradiction | ].
    apply in_map. apply all_resources_In.
  - apply in_map. apply all_resources_In.
Qed.


Lemma field_is_determines (r1 r2 : BrokerInfo M) (x : Resource -> iface M) :
  (forall c, field_is r1 c (x c)) -> (forall c, field_is r2 c (x c)) -> r1 = r2.
Proof.
  intros H1 H2. destruct r1, r2.
  pose proof (H1 overview) as A1. pose proof (H2 overview) as B1.
  pose proof (H1 connections) as A2. pose proof (H2 connections) as B2.
  pose proof (H1 exchanges) as A3. pose proof (H2 exchanges) as B3.
  pose proof (H1 queues) as A4. pose proof (H2 queues) as B4.
  pose proof (H1 consumers) as A5. pose proof (H2 consumers) as B5.
  pose proof (H1 bindings) as A6. pose proof (H2 bindings) as B6.
  simpl in *. f_equal; congruence.
Qed.

End AggregatorRunClaims.

Section AggregatorRunTheorems.

Variable M : Schema.
Variable s : RabbitHTTPClient.

(** A run that returns a nil error has received all six channels, and the
    schedule offered each of them. *)
Lemma BrokerInfo_nil_error_receives_all (sched : list Resource)
  (r : BrokerInfo M) :
  snd (RabbitHTTPClient_BrokerInfo M s sched) = Returned (r, None) ->
  forall c,
    In (ev_recv c) (fst (RabbitHTTPClient_BrokerInfo M s sched)) /\ In c sched.
Proof.
  destruct (BrokerInfo_run M s sched) as (tr & out & Hrun & Hrecv & Hfacts).
  rewrite Hrun. cbn [fst snd]. intros ->.
  destruct Hfacts as (Hnd & Hoffered & _ & _ & _ & Hlen & _).
  intros c.
  assert (In (ev_recv c) tr) as Hin
    by (apply six_receives_are_all; auto).
  split; [ apply recv_in_trace; exact Hin | apply Hoffered; exact Hin ].
Qed.

(** A failed fetch the loop tests the error of, once offered, ends the
    run with an error. *)
Lemma BrokerInfo_reports_offered_failure (sched : list Resource) (c : Resource) :
  In c sched -> reported_failure M s c ->
  exists r e,
    snd (RabbitHTTPClient_BrokerInfo M s sched) = Returned (r, Some e).
Proof.
  intros Hin Hfail. rewrite BrokerInfo_unfold. cbn [snd].
  apply (@BrokerInfo_loop_reports M s sched _ _ _ c);
    auto using loop_inv_initial, pending_initial.
Qed.

(** X1. [BrokerInfo] returns a non-nil error exactly when the schedule
    offers the completion of a failed fetch of one of connections,
    exchanges, queues, consumers and bindings. *)
Theorem BrokerInfo_error_iff_reported_failure (sched : list Resource) :
  (exists r e,
     snd (RabbitHTTPClient_BrokerInfo M s sched) = Returned (r, Some e)) <->
  (exists c, In c sched /\ reported_failure M s c).
Proof.
  split.
  - intros (r & e & Hret).
    pose proof (BrokerInfo_post M s sched) as Hpost. rewrite Hret in Hpost.
    simpl in Hpost. destruct Hpost as (c & Hne & Hin & _ & He).
    exists c. split; [ exact Hin | ]. split; eauto.
  - intros (c & Hin & Hfail).
    apply (BrokerInfo_reports_offered_failure sched Hin Hfail).
Qed.

(** X2. [BrokerInfo] blocks for ever exactly when the schedule leaves a
    channel out and offers no failed fetch of the five resources whose
    error is tested: nothing bounds the wait for a missing completion. *)
Theorem BrokerInfo_blocks_iff_completion_missing (sched : list Resource) :
  snd (RabbitHTTPClient_BrokerInfo M s sched) = Blocked <->
  (exists c, ~ In c sched) /\
  (forall c, In c sched -> ~ reported_failure M s c).
Proof.
  split.
  - intros Hblocked. split.
    + pose proof (BrokerInfo_post M s sched) as Hpost.
      rewrite Hblocked in Hpost. simpl in Hpost.
      destruct Hpost as (c & _ & Hc). eauto.
    + intros c Hin Hfail.
      destruct (BrokerInfo_reports_offered_failure sched Hin Hfail)
        as (r & e & Hret).
      congruence.
  - intros [(c & Hout) Hnone].
    pose proof (BrokerInfo_post M s sched) as Hpost.
    destruct (snd (RabbitHTTPClient_BrokerInfo M s sched))
      as [[r [e | ]] | | ] eqn:Hret; simpl in Hpost.
    + destruct Hpost as (c' & Hne & Hin & _ & He).
      exfalso. apply (Hnone c' Hin). split; eauto.
    + exfalso. apply Hout.
      apply (BrokerInfo_nil_error_receives_all sched Hret c).
    + contradiction.
    + reflexivity.
Qed.

(** X3. [BrokerInfo] returns a nil error exactly when the schedule offers
    all six channels and none of the five fetches whose error is tested
    failed. *)
Theorem BrokerInfo_nil_error_iff (sched : list Resource) :
  (exists r, snd (RabbitHTTPClient_BrokerInfo M s sched) = Returned (r, None)) <->
  (forall c, In c sched) /\ (forall c, ~ reported_failure M s c).
Proof.
  split.
  - intros (r & Hret). split.
    + intros c. apply (BrokerInfo_nil_error_receives_all sched Hret c).
    + intros c [Hne (e & He)].
      pose proof (BrokerInfo_post M s sched) as Hpost. rewrite Hret in Hpost.
      simpl in Hpost. destruct Hpost as [_ Hnil].
      rewrite (Hnil c Hne (pending_initial M s c)) in He. discriminate.
  - intros [Hall Hnone].
    apply BrokerInfo_drops_overview_error; [ exact Hall | ].
    intros c Hne. destruct (err (fetched M s c)) as [e | ] eqn:He;
      [ | reflexivity ].
    exfalso. apply (Hnone c). split; eauto.
Qed.


(** X5. In every run of [BrokerInfo] the receives that follow the six
    starts take no channel twice and only channels the schedule offers, so
    there are at most six; in a run that returns a nil error there are
    exactly six, one of each channel. *)
Theorem BrokerInfo_receives_each_channel_once (sched : list Resource) :
  exists recvs,
    fst (RabbitHTTPClient_BrokerInfo M s sched) =
      (map ev_go (map (resource_uri s) all_resources) ++ recvs)%list /\
    NoDup recvs /\
    (forall c, In (ev_recv c) recvs -> In c sched) /\
    List.length recvs <= numExpectedResources /\
    (forall r,
       snd (RabbitHTTPClient_BrokerInfo M s sched) = Returned (r, None) ->
       List.length recvs = numExpectedResources /\
       forall c, In (ev_recv c) recvs).
Proof.
  destruct (BrokerInfo_run M s sched) as (tr & out & Hrun & Hrecv & Hfacts).
  rewrite Hrun. cbn [fst snd]. exists tr.
  destruct Hfacts as (Hnd & Hoffered & _ & Hout).
  split; [ reflexivity | ]. split; [ exact Hnd | ].
  split; [ intros c H; apply Hoffered; exact H | ].
  split.
  - change numExpectedResources
      with (List.length (map ev_recv all_resources)).
    apply NoDup_incl_length; [ exact Hnd | ].
    intros ev Hev. rewrite Forall_forall in Hrecv. specialize (Hrecv ev Hev).
    destruct ev as [u | c]; [ contradiction | ].
    apply in_map. apply all_resources_In.
  - intros r ->. destruct Hout as (_ & _ & Hlen & _).
    split; [ exact Hlen | ].
    apply six_receives_are_all; auto.
Qed.

(** X6. When [BrokerInfo] returns an error, that error is the one of the
    last completion it received, a failed fetch of one of the five
    resources whose error is tested, and each of those five received
    before it had succeeded: the first failure seen ends the run and
    nothing is received after it. *)
Theorem BrokerInfo_error_is_first_failure_seen
  (sched : list Resource) (r : BrokerInfo M) (e : error) :
  snd (RabbitHTTPClient_BrokerInfo M s sched) = Returned (r, Some e) ->
  exists before c,
    fst (RabbitHTTPClient_BrokerInfo M s sched) =
      (map ev_go (map (resource_uri s) all_resources) ++
       before ++ [ev_recv c])%list /\
    c <> overview /\
    err (fetched M s c) = Some e /\
    (forall c', c' <> overview -> In (ev_recv c') before ->
                err (fetched M s c') = None).
Proof.
  destruct (BrokerInfo_run M s sched) as (tr & out & Hrun & Hrecv & Hfacts).
  rewrite Hrun. cbn [fst snd]. intros ->.
  destruct Hfacts as (_ & _ & Hbefore & _ & _ & (c & Hne & He & Hlast)).
  exists (removelast tr), c. repeat split; auto.
  rewrite <- Hlast. reflexivity.
Qed.

(** X7. The snapshot returned with a nil error does not depend on the
    order in which the completions arrive: two runs that both return a nil
    error return the same snapshot. *)
Theorem BrokerInfo_snapshot_order_independent
  (sched1 sched2 : list Resource) (r1 r2 : BrokerInfo M) :
  snd (RabbitHTTPClient_BrokerInfo M s sched1) = Returned (r1, None) ->
  snd (RabbitHTTPClient_BrokerInfo M s sched2) = Returned (r2, None) ->
  r1 = r2.
Proof.
  intros H1 H2.
  pose proof (BrokerInfo_post M s sched1) as P1. rewrite H1 in P1.
  pose proof (BrokerInfo_post M s sched2) as P2. rewrite H2 in P2.
  simpl in P1, P2.
  apply (@field_is_determines M r1 r2 (fun c => result (fetched M s c)));
    tauto.
Qed.

(** X8. Each field of a snapshot [BrokerInfo] returned that comes from a
    received completion is the value the accessor of that resource returns
    from the same client. *)
Theorem BrokerInfo_fields_agree_with_accessors
  (sched : list Resource) (r : BrokerInfo M) (e : option error) :
  snd (RabbitHTTPClient_BrokerInfo M s sched) = Returned (r, e) ->
  forall c,
    In (ev_recv c) (fst (RabbitHTTPClient_BrokerInfo M s sched)) ->
    exists x e', field_is r c x /\ accessor_returns s c x e'.
Proof.
  destruct (BrokerInfo_run M s sched) as (tr & out & Hrun & Hrecv & Hfacts).
  rewrite Hrun. cbn [fst snd]. intros ->.
  destruct Hfacts as (_ & _ & _ & Hgot & _).
  intros c H. apply recv_in_trace in H.
  exists (result (fetched M s c)), (err (fetched M s c)).
  split; [ apply Hgot; exact H | apply accessor_returns_fetched ].
Qed.

End AggregatorRunTheorems.

(** ** URIs, deletion and the decoder of channel details *)



Section DeletionRuns.

Variable http_NewRequest : string -> string -> or_error Request.

(** X10. [delResource] hands the client at most one request, the one
    built for DELETE on the URI; when the request cannot be built nothing
    is sent, and the builder's or the transport's error comes back as it
    is. *)
Theorem delResource_sends_at_most_one_request
  (s : RabbitHTTPClient) (u : string) :
  List.length (fst (delResource http_NewRequest s u)) <= 1 /\
  Forall (fun req => http_NewRequest "DELETE" u = Ok req)
         (fst (delResource http_NewRequest s u)) /\
  (forall e,
     http_NewRequest "DELETE" u = Err e ->
     delResource http_NewRequest s u = ([], Some e)) /\
  (forall req e,
     http_NewRequest "DELETE" u = Ok req ->
     Do (client s) req = Err e ->
     delResource http_NewRequest s u = ([req], Some e)).
Proof.
  unfold delResource.
  destruct (http_NewRequest "DELETE" u) as [req | e] eqn:Hnew.
  - destruct (Do (client s) req) as [resp | e] eqn:Hdo.
    + destruct (negb _ && negb _); simpl;
        (split; [ lia | split; [ repeat constructor | split ] ]);
        try discriminate;
        intros req' e' Hreq Hsend; injection Hreq as <-;
        rewrite Hdo in Hsend; discriminate.
    + simpl. split; [ lia | split; [ repeat constructor | split ] ];
        try discriminate.
      intros req' e' Hreq Hsend. injection Hreq as <-.
      rewrite Hdo in Hsend. injection Hsend as <-. reflexivity.
  - simpl. split; [ lia | split; [ constructor | split ] ]; try discriminate.
    intros e' He. injection He as <-. reflexivity.
Qed.

End DeletionRuns.


(** ** More runs against the sample broker *)

Lemma healthy_reports_no_failure :
  forall c, ~ reported_failure Sample.schema Sample.healthy c.
Proof.
  intros c [_ (e & He)]. destruct c; vm_compute in He; discriminate.
Qed.

Lemma BrokerInfo_error_iff_reported_failure_witness :
  exists r e,
    snd (RabbitHTTPClient_BrokerInfo Sample.schema Sample.two_down
           [overview; queues]) = Returned (r, Some e).
Proof.
  apply (proj2 (BrokerInfo_error_iff_reported_failure Sample.schema
                  Sample.two_down [overview; queues])).
  exists queues. split; [ simpl; auto | ].
  split; [ discriminate | ].
  exists (errors_New "503 Service Unavailable"). vm_compute. reflexivity.
Defined.

Lemma BrokerInfo_blocks_iff_completion_missing_witness :
  snd (RabbitHTTPClient_BrokerInfo Sample.schema Sample.healthy
         [overview; queues]) = Blocked.
Proof.
  apply (proj2 (BrokerInfo_blocks_iff_completion_missing Sample.schema
                  Sample.healthy [overview; queues])).
  split.
  - exists bindings. simpl. intuition discriminate.
  - intros c _. apply healthy_reports_no_failure.
Defined.

Lemma BrokerInfo_nil_error_iff_witness :
  exists r,
    snd (RabbitHTTPClient_BrokerInfo Sample.schema Sample.healthy
           (rev all_resources)) = Returned (r, None).
Proof.
  apply (proj2 (BrokerInfo_nil_error_iff Sample.schema Sample.healthy
                  (rev all_resources))).
  split; [ exact every_resource_scheduled_backwards
         | exact healthy_reports_no_failure ].
Defined.

Lemma queues_down_backwards_run :
  RabbitHTTPClient_BrokerInfo Sample.schema Sample.queues_down
    (rev all_resources) =
  ((map ev_go (map (resource_uri Sample.queues_down) all_resources) ++
    [ev_recv bindings; ev_recv consumers] ++ [ev_recv queues])%list,
   Returned
     (mkBrokerInfo Sample.schema (zero_RabbitOverview Sample.schema)
        [] [] [] ["n1"] ["n1"],
      Some (errors_New "503 Service Unavailable"))).
Proof. vm_compute. reflexivity. Qed.


Lemma BrokerInfo_receives_each_channel_once_witness :
  exists recvs,
    fst (RabbitHTTPClient_BrokerInfo Sample.schema Sample.healthy all_resources) =
      (map ev_go (map (resource_uri Sample.healthy) all_resources) ++ recvs)%list /\
    NoDup recvs /\
    List.length recvs = numExpectedResources.
Proof.
  destruct (BrokerInfo_receives_each_channel_once Sample.schema Sample.healthy
              all_resources) as (recvs & Htrace & Hnd & _ & _ & Hsix).
  exists recvs. split; [ exact Htrace | ]. split; [ exact Hnd | ].
  eapply Hsix. vm_compute. reflexivity.
Defined.

Lemma BrokerInfo_error_is_first_failure_seen_witness :
  exists before c,
    fst (RabbitHTTPClient_BrokerInfo Sample.schema Sample.queues_down
           (rev all_resources)) =
      (map ev_go (map (resource_uri Sample.queues_down) all_resources) ++
       before ++ [ev_recv c])%list /\
    c <> overview /\
    err (fetched Sample.schema Sample.queues_down c) =
      Some (errors_New "503 Service Unavailable") /\
    (forall c', c' <> overview -> In (ev_recv c') before ->
                err (fetched Sample.schema Sample.queues_down c') = None).
Proof.
  exact (@BrokerInfo_error_is_first_failure_seen Sample.schema
           Sample.queues_down (rev all_resources) _ _
           (f_equal snd queues_down_backwards_run)).
Defined.

Lemma healthy_run_forwards :
  snd (RabbitHTTPClient_BrokerInfo Sample.schema Sample.healthy all_resources) =
  Returned
    (mkBrokerInfo Sample.schema (Sample.mkOverview "3.6.5")
       [Sample.mkConnection "a" 5672; Sample.mkConnection "b" 5673]
       ["n1"] ["n1"] ["n1"] ["n1"],
     None).
Proof. vm_compute. reflexivity. Qed.

Lemma healthy_run_backwards :
  exists r,
    snd (RabbitHTTPClient_BrokerInfo Sample.schema Sample.healthy
           (rev all_resources)) = Returned (r, None).
Proof. eexists. vm_compute. reflexivity. Qed.

Lemma BrokerInfo_snapshot_order_independent_witness :
  exists r,
    snd (RabbitHTTPClient_BrokerInfo Sample.schema Sample.healthy
           (rev all_resources)) = Returned (r, None) /\
    mkBrokerInfo Sample.schema (Sample.mkOverview "3.6.5")
      [Sample.mkConnection "a" 5672; Sample.mkConnection "b" 5673]
      ["n1"] ["n1"] ["n1"] ["n1"] = r.
Proof.
  destruct healthy_run_backwards as (r & Hr). exists r.
  split; [ exact Hr | ].
  exact (@BrokerInfo_snapshot_order_independent Sample.schema Sample.healthy
           all_resources (rev all_resources) _ r healthy_run_forwards Hr).
Defined.

Lemma BrokerInfo_fields_agree_with_accessors_witness :
  exists (x : iface Sample.schema) e',
    field_is
      (mkBrokerInfo Sample.schema (zero_RabbitOverview Sample.schema)
         [] [] [] ["n1"] ["n1"]) bindings x /\
    accessor_returns Sample.queues_down bindings x e'.
Proof.
  apply (@BrokerInfo_fields_agree_with_accessors Sample.schema
           Sample.queues_down (rev all_resources) _ _
           (f_equal snd queues_down_backwards_run) bindings).
  rewrite queues_down_backwards_run. simpl. auto 10.
Defined.


Lemma delResource_sends_at_most_one_request_witness :
  delResource Sample.http_NewRequest Sample.deleting
    (Sample.api "/connections/unknown") =
  ([mkRequest "DELETE" (Sample.api "/connections/unknown")],
   Some (url_Error "dial tcp: connection refused")).
Proof.
  apply (proj2 (proj2 (proj2 (delResource_sends_at_most_one_request
                                Sample.http_NewRequest Sample.deleting
                                (Sample.api "/connections/unknown")))));
    vm_compute; reflexivity.
Defined.


(** ** The accessors, end to end *)

Section AccessorContract.

Variable M : Schema.
Variable s : RabbitHTTPClient.



End AccessorContract.

